(** * Resource summary (core/computed/resource-summary.js)

    A shallow embedding of the [ResourceSummary] computed artifact of
    Lighthouse: the per-record resource classifier, the favicon URL
    detector, the first-party host matcher and the aggregation pass
    [summarize].

    Conventions of the embedding.
    - A JavaScript string is a [string] (a sequence of code units); an
      optional property ([undefined] or [null]) is an [option].
    - Byte sizes and counts are integers ([Z]); the embedding covers the
      integer range on which JavaScript numbers add exactly.
    - A thrown exception is the result [None]; a normal return is [Some].
      Exceptions of [Budget.getMatchingBudget] are outside the embedding:
      the statements about [summarize] are about the summaries it returns.
    - The summary object is a finite map from property names to entries.
    - Built-ins and collaborators that live outside this file ([new URL],
      [Budget.getMatchingBudget], [NetworkRequest.isNonNetworkRequest],
      [Util.getRootDomain]) are variables of the section [Summary]. *)

From Stdlib Require Import ZArith Lia Ascii.
From stdpp Require Import base option list gmap strings.

Local Open Scope Z_scope.

(** ** Strings *)

Module JsString.

(** [s.startsWith(search)] *)
Definition startsWith (s search : string) : bool := String.prefix search s.

(** [s.slice(start)] for a non-negative [start] *)
Definition slice (s : string) (start : nat) : string :=
  String.substring start (String.length s - start) s.

(** [s.endsWith(search)]: the code units of [s] from
    [len - searchLength] on are those of [search]. *)
Definition endsWith (s search : string) : bool :=
  let len := String.length s in
  let searchLength := String.length search in
  if (len <? searchLength)%nat then false
  else String.eqb (String.substring (len - searchLength) searchLength s) search.

(** Truthiness of a string: only the empty string is falsy. *)
Definition truthy (s : string) : bool :=
  match s with
  | EmptyString => false
  | String _ _ => true
  end.

(** [arr.includes(x)] on an array of strings *)
Definition includes (arr : list string) (x : string) : bool :=
  existsb (String.eqb x) arr.

End JsString.

(** ** Values returned by a property read *)

(** A property read on an object literal sees the literal's own properties
    and those it inherits from [Object.prototype]. The latter are functions
    (or, for [__proto__], the prototype object itself): we only record which
    one was read. *)
Inductive value : Type :=
  | VString (s : string)
  | VInherited (name : string).

Definition truthy (v : value) : bool :=
  match v with
  | VString s => JsString.truthy s
  | VInherited _ => true
  end.

(** [v === 'other'] and the like: strict equality with a string literal. *)
Definition strictEqString (v : value) (lit : string) : bool :=
  match v with
  | VString s => String.eqb s lit
  | VInherited _ => false
  end.

(** The property names of [Object.prototype] (ECMAScript, with Annex B). *)
Definition objectPrototypeKeys : list string :=
  [ "constructor"; "hasOwnProperty"; "isPrototypeOf"; "propertyIsEnumerable";
    "toLocaleString"; "toString"; "valueOf"; "__proto__";
    "__defineGetter__"; "__defineSetter__";
    "__lookupGetter__"; "__lookupSetter__" ].

(** [obj[key]] for an object literal [obj] whose own properties are [own];
    [None] is [undefined]. *)
Definition getProperty (own : gmap string string) (key : string) : option value :=
  match own !! key with
  | Some v => Some (VString v)
  | None =>
      if bool_decide (key ∈ objectPrototypeKeys) then Some (VInherited key)
      else None
  end.

(** [a || b] where [a] is the result of a property read *)
Definition orElse (a : option value) (b : value) : value :=
  match a with
  | Some v => if truthy v then v else b
  | None => b
  end.

(** ** Data model *)

(** The fields of [LH.Artifacts.NetworkRequest] the summary reads;
    [protocol] stands for what the non-network predicate inspects. *)
Record NetworkRequest : Type := {
  url : string;
  resourceType : option string;
  resourceSize : Z;
  transferSize : Z;
  protocol : string
}.

Record LinkElement : Type := {
  rel : string;
  href : option string
}.

Record URLArtifact : Type := {
  mainDocumentUrl : option string;
  finalDisplayedUrl : string
}.

Record BudgetOptions : Type := {
  firstPartyHostnames : option (list string)
}.

Record Budget : Type := {
  path : option string;
  options : option BudgetOptions
}.

Record Entity : Type := {
  name : string;
  domains : list string
}.

Record EntityClassification : Type := {
  firstParty : option Entity
}.

Module Entry.
(** [ResourceEntry] *)
Record t : Type := {
  count : Z;
  resourceSize : Z;
  transferSize : Z
}.

Definition zero : t := {| count := 0; resourceSize := 0; transferSize := 0 |}.
End Entry.

Module Data.
(** The artifacts [compute_] receives; the type of the devtools log is
    left open. *)
Record t (DevtoolsLog : Type) : Type := {
  URL : URLArtifact;
  devtoolsLog : DevtoolsLog;
  budgets : option (list Budget);
  LinkElements : list LinkElement
}.
Arguments URL {DevtoolsLog} _.
Arguments devtoolsLog {DevtoolsLog} _.
Arguments budgets {DevtoolsLog} _.
Arguments LinkElements {DevtoolsLog} _.
End Data.

(** ** determineResourceType *)

Definition requestToResourceType : gmap string string :=
  list_to_map
    [ ("Stylesheet", "stylesheet");
      ("Image", "image");
      ("Media", "media");
      ("Font", "font");
      ("Script", "script");
      ("Document", "document") ].

Definition determineResourceType (record : NetworkRequest) : value :=
  match resourceType record with
  | None => VString "other"
  | Some t =>
      if negb (JsString.truthy t) then VString "other"
      else orElse (getProperty requestToResourceType t) (VString "other")
  end.

(** ** determineFaviconUrls *)

Definition isIconLink (e : LinkElement) : bool :=
  String.eqb (rel e) "icon" || String.eqb (rel e) "shortcut icon".

(** ** The specification's wording

    Definitions that follow the prose of the specification, to be compared
    with the definitions taken from the source. *)

Module Spec.

(** The fixed table of the resource classifier. *)
Definition classify (resourceType : option string) : string :=
  match resourceType with
  | None => "other"
  | Some t =>
      if String.eqb t "Stylesheet" then "stylesheet"
      else if String.eqb t "Image" then "image"
      else if String.eqb t "Media" then "media"
      else if String.eqb t "Font" then "font"
      else if String.eqb t "Script" then "script"
      else if String.eqb t "Document" then "document"
      else "other"
  end.

(** The seven per-request buckets and the two aggregate ones. *)
Definition requestTypes : list string :=
  [ "stylesheet"; "image"; "media"; "font"; "script"; "document"; "other" ].

Definition budgetResourceTypes : list string :=
  requestTypes ++ [ "total"; "third-party" ].

(** Trimming surrounding whitespace (tab, line feed, vertical tab, form
    feed, carriage return, space). *)
Fixpoint trimStart (s : string) : string :=
  match s with
  | EmptyString => EmptyString
  | String c rest => if Ascii.is_space c then trimStart rest else s
  end.

Definition trim (s : string) : string :=
  String.rev (trimStart (String.rev (trimStart s))).

(** A link is an icon link when its trimmed [rel] is "icon" or
    "shortcut icon". *)
Definition isIconLink (e : LinkElement) : Prop :=
  trim (rel e) = "icon" ∨ trim (rel e) = "shortcut icon".

(** A host pattern matches a hostname: a pattern [*.suffix] matches the
    hostnames that end with [suffix]; any other pattern matches only
    itself. *)
Definition endsWith (hostname suffix : string) : Prop :=
  ∃ front, hostname = front +:+ suffix.

Definition patternMatches (hostname pattern : string) : Prop :=
  (∃ suffix, pattern = "*." +:+ suffix ∧ endsWith hostname suffix)
  ∨ ((∀ suffix, pattern ≠ "*." +:+ suffix) ∧ hostname = pattern).

(** A request is first-party when some pattern of the list matches. *)
Definition isFirstParty (hostname : string) (patterns : list string) : Prop :=
  ∃ pattern, pattern ∈ patterns ∧ patternMatches hostname pattern.

(** "Absent" for an optional string the code tests with [!x]:
    [undefined] or the empty string. *)
Definition absent (x : option string) : Prop :=
  x = None ∨ x = Some EmptyString.

End Spec.

(** ** Stand-ins for the collaborators, and sample inputs

    Small executable instances of the section variables, used to run the
    embedding on concrete page loads. *)

Module Demo.

Fixpoint untilSlash (s : string) : string :=
  match s with
  | EmptyString => EmptyString
  | String c rest =>
      if Ascii.eqb c "/"%char then EmptyString else String c (untilSlash rest)
  end.

(** Hostname of an [https://host/path] URL; other strings do not parse. *)
Definition URL_hostname (u : string) : option string :=
  if JsString.startsWith u "https://" then Some (untilSlash (JsString.slice u 8))
  else None.

(** Resolution of an absolute [https:] URL or of an absolute path. *)
Definition URL_href (u base : string) : option string :=
  if JsString.startsWith u "https://" then Some u
  else
    match URL_hostname base with
    | Some host =>
        if JsString.startsWith u "/" then Some ("https://" +:+ host +:+ u)
        else None
    | None => None
    end.

(** The first budget of the list applies to every page. *)
Definition getMatchingBudget (budgets : option (list Budget))
    (mainDocumentUrl : option string) : option Budget :=
  match budgets with
  | Some (b :: _) => Some b
  | _ => None
  end.

Definition isNonNetworkRequest (record : NetworkRequest) : bool :=
  JsString.includes ["blob"; "data"; "intent"; "file"; "filesystem"]
    (protocol record).

Definition getRootDomain (u : string) : option string := URL_hostname u.

Definition request (u : string) (t : option string) (rs ts : Z) (proto : string)
    : NetworkRequest :=
  {| url := u; resourceType := t; resourceSize := rs; transferSize := ts;
     protocol := proto |}.

Definition page : URLArtifact :=
  {| mainDocumentUrl := Some "https://example.com/";
     finalDisplayedUrl := "https://example.com/" |}.

Definition records : list NetworkRequest :=
  [ request "https://example.com/" (Some "Document") 1000 400 "h2";
    request "https://cdn.example.com/a.js" (Some "Script") 500 200 "h2";
    request "https://other.com/b.js" (Some "Script") 300 100 "h2";
    request "https://example.com/favicon.ico" None 50 60 "h2";
    request "https://example.com/icon.png" (Some "Image") 70 80 "h2";
    request "data:image/png;base64,AAAA" (Some "Image") 10 0 "data";
    request "https://other.com/api" (Some "XHR") 20 30 "h2" ].

Definition links : list LinkElement :=
  [ {| rel := "stylesheet"; href := Some "/main.css" |};
    {| rel := "icon"; href := Some "/icon.png" |};
    {| rel := "shortcut icon"; href := None |} ].

Definition budgets : option (list Budget) :=
  Some [ {| path := Some "/";
            options :=
              Some {| firstPartyHostnames :=
                        Some ["static.example.net"; "*.example.com"] |} |} ].

Definition noEntities : EntityClassification := {| firstParty := None |}.

Definition emptyEntity : EntityClassification :=
  {| firstParty := Some {| name := "Example"; domains := [] |} |}.

Definition entities : EntityClassification :=
  {| firstParty :=
       Some {| name := "Example"; domains := ["example.com"; "example.org"] |} |}.

(** A devtools log that is the list of its records, or is malformed. *)
Definition NetworkRecords_request (log : option (list NetworkRequest))
    : option (list NetworkRequest) := log.

Definition EntityClassification_request (URL : URLArtifact)
    (log : option (list NetworkRequest)) : option EntityClassification :=
  match log with
  | Some _ => Some entities
  | None => None
  end.

Definition data (log : option (list NetworkRequest))
    : Data.t (option (list NetworkRequest)) :=
  {| Data.URL := page; Data.devtoolsLog := log; Data.budgets := None;
     Data.LinkElements := links |}.

(** The resource types of the inspection protocol, the declared type of
    [record.resourceType]. *)
Definition protocolResourceTypes : list string :=
  [ "Document"; "Stylesheet"; "Image"; "Media"; "Font"; "Script";
    "TextTrack"; "XHR"; "Fetch"; "Prefetch"; "EventSource"; "WebSocket";
    "Manifest"; "SignedExchange"; "Ping"; "CSPViolationReport"; "Preflight";
    "Other" ].

End Demo.

(** Closes a goal from membership of a string in a list of other strings. *)
Ltac not_in_list H :=
  repeat (apply elem_of_cons in H as [?|H]; [congruence|]);
  by apply elem_of_nil in H.

(** Proves membership in a list that is written out. *)
Ltac in_list :=
  repeat first [apply list_elem_of_here | apply list_elem_of_further].

Section Summary.

(** [new URL(u).hostname]; [None] when the constructor throws. *)
Variable URL_hostname : string → option string.
(** [new URL(u, base).href]; [None] when the constructor throws. *)
Variable URL_href : string → string → option string.
(** [Budget.getMatchingBudget(budgets, mainDocumentUrl)]: a budget or
    [undefined]. The variable gives the value of the call when it returns;
    a call that throws (the collaborator parses [mainDocumentUrl]) ends
    [summarize] before anything else and is not part of the embedding, so
    what is proved of [summarize] is proved of the summaries it returns. *)
Variable getMatchingBudget : option (list Budget) → option string → option Budget.
(** [NetworkRequest.isNonNetworkRequest(record)] *)
Variable isNonNetworkRequest : NetworkRequest → bool.
(** [Util.getRootDomain(url)]; [None] when it throws. *)
Variable getRootDomain : string → option string.

(** The [for ... of] loop over the icon links, pushing onto [urls]. *)
Fixpoint pushIconUrls (mainDocumentUrl : string)
    (iconLinkElements : list LinkElement) (urls : list string)
    : option (list string) :=
  match iconLinkElements with
  | [] => Some urls
  | linkElement :: rest =>
      match href linkElement with
      | Some h =>
          if JsString.truthy h then
            match URL_href h mainDocumentUrl with
            | Some u => pushIconUrls mainDocumentUrl rest (urls ++ [u])
            | None => None
            end
          else pushIconUrls mainDocumentUrl rest urls
      | None => pushIconUrls mainDocumentUrl rest urls
      end
  end.

Definition determineFaviconUrls (LinkElements : list LinkElement)
    (mainDocumentUrl : option string) : option (list string) :=
  match mainDocumentUrl with
  | None => Some []
  | Some m =>
      if negb (JsString.truthy m) then Some []
      else
        let iconLinkElements := List.filter isIconLink LinkElements in
        if (length iconLinkElements =? 0)%nat then
          match URL_href "/favicon.ico" m with
          | Some u => Some [u]
          | None => None
          end
        else pushIconUrls m iconLinkElements []
  end.

(** ** summarize *)

Definition initialSummary : gmap string Entry.t :=
  list_to_map
    [ ("stylesheet", Entry.zero);
      ("image", Entry.zero);
      ("media", Entry.zero);
      ("font", Entry.zero);
      ("script", Entry.zero);
      ("document", Entry.zero);
      ("other", Entry.zero);
      ("total", Entry.zero);
      ("third-party", Entry.zero) ].

(** [budget?.options?.firstPartyHostnames]; an array, even an empty
    one, is truthy. *)
Definition optionalFirstPartyHostnames (budget : option Budget)
    : option (list string) :=
  match budget with
  | Some b =>
      match options b with
      | Some o => firstPartyHostnames o
      | None => None
      end
  | None => None
  end.

(** The first-party host patterns ([firstPartyHosts] in the source). *)
Definition firstPartyHosts (budget : option Budget)
    (classifiedEntities : EntityClassification) (URL : URLArtifact)
    : option (list string) :=
  match optionalFirstPartyHostnames budget with
  | Some hosts => Some hosts
  | None =>
      match firstParty classifiedEntities with
      | Some entity => Some (map (String.append "*.") (domains entity))
      | None =>
          match getRootDomain (finalDisplayedUrl URL) with
          | Some root => Some ["*." +:+ root]
          | None => None
          end
      end
  end.

(** The callback of [firstPartyHosts.some], given the parsed hostname. *)
Definition hostMatches (hostname hostExp : string) : bool :=
  if JsString.startsWith hostExp "*." then
    JsString.endsWith hostname (JsString.slice hostExp 2)
  else String.eqb hostname hostExp.

(** [firstPartyHosts.some(hostExp => ...)]: the URL of the record is
    parsed in every call of the callback. *)
Fixpoint isFirstParty (hosts : list string) (record : NetworkRequest)
    : option bool :=
  match hosts with
  | [] => Some false
  | hostExp :: rest =>
      match URL_hostname (url record) with
      | Some hostname =>
          if hostMatches hostname hostExp then Some true
          else isFirstParty rest record
      | None => None
      end
  end.

(** The callback of [networkRecords.filter]. *)
Definition keepRecord (faviconUrls : list string) (record : NetworkRequest)
    : bool :=
  let type := determineResourceType record in
  if strictEqString type "other" && JsString.includes faviconUrls (url record)
  then false
  else if isNonNetworkRequest record then false
  else true.

(** [entry.count++; entry.resourceSize += ...; entry.transferSize += ...] *)
Definition addRecord (entry : Entry.t) (record : NetworkRequest) : Entry.t :=
  {| Entry.count := Entry.count entry + 1;
     Entry.resourceSize := Entry.resourceSize entry + resourceSize record;
     Entry.transferSize := Entry.transferSize entry + transferSize record |}.

(** Updating [resourceSummary[key]] in place, for a key that is a bucket
    name or a string the classifier returns; reading a missing bucket gives
    [undefined], whose [count] cannot be read. *)
Definition bump (key : string) (record : NetworkRequest)
    (resourceSummary : gmap string Entry.t) : option (gmap string Entry.t) :=
  match resourceSummary !! key with
  | Some entry => Some (<[key := addRecord entry record]> resourceSummary)
  | None => None
  end.

(** [resourceSummary[type]] for the classifier's result: a string is its
    own property key; an inherited function or object is converted to a
    string that names no bucket. *)
Definition bumpType (type : value) (record : NetworkRequest)
    (resourceSummary : gmap string Entry.t) : option (gmap string Entry.t) :=
  match type with
  | VString key => bump key record resourceSummary
  | VInherited _ => None
  end.

(** The callback of [forEach]. *)
Definition accumulate (hosts : list string)
    (resourceSummary : gmap string Entry.t) (record : NetworkRequest)
    : option (gmap string Entry.t) :=
  let type := determineResourceType record in
  s1 ← bumpType type record resourceSummary;
  s2 ← bump "total" record s1;
  matched ← isFirstParty hosts record;
  if negb matched then bump "third-party" record s2 else Some s2.

Fixpoint forEach (hosts : list string) (records : list NetworkRequest)
    (resourceSummary : gmap string Entry.t) : option (gmap string Entry.t) :=
  match records with
  | [] => Some resourceSummary
  | record :: rest =>
      match accumulate hosts resourceSummary record with
      | Some s => forEach hosts rest s
      | None => None
      end
  end.

Definition summarize (networkRecords : list NetworkRequest)
    (URL : URLArtifact) (budgets : option (list Budget))
    (LinkElements : list LinkElement)
    (classifiedEntities : EntityClassification)
    : option (gmap string Entry.t) :=
  let budget := getMatchingBudget budgets (mainDocumentUrl URL) in
  hosts ← firstPartyHosts budget classifiedEntities URL;
  faviconUrls ← determineFaviconUrls LinkElements (mainDocumentUrl URL);
  forEach hosts (List.filter (keepRecord faviconUrls) networkRecords)
    initialSummary.

(** ** Reference quantities for the statements *)

(** Sum of a size field over a list of records. *)
Definition sumOf (f : NetworkRequest → Z) (records : list NetworkRequest) : Z :=
  foldr (λ record acc, f record + acc) 0 records.

(** The entry obtained by adding every record of a list to a zero entry. *)
Definition entryOf (records : list NetworkRequest) : Entry.t :=
  {| Entry.count := Z.of_nat (length records);
     Entry.resourceSize := sumOf resourceSize records;
     Entry.transferSize := sumOf transferSize records |}.

Definition plus (e1 e2 : Entry.t) : Entry.t :=
  {| Entry.count := Entry.count e1 + Entry.count e2;
     Entry.resourceSize := Entry.resourceSize e1 + Entry.resourceSize e2;
     Entry.transferSize := Entry.transferSize e1 + Entry.transferSize e2 |}.

Definition isThirdParty (hosts : list string) (record : NetworkRequest) : bool :=
  match isFirstParty hosts record with
  | Some false => true
  | _ => false
  end.

Definition isFirst (hosts : list string) (record : NetworkRequest) : bool :=
  match isFirstParty hosts record with
  | Some true => true
  | _ => false
  end.

(** The records that are added to the bucket [key]: those classified
    [key], every record for "total", the records that are not first-party
    for "third-party". *)
Definition matchesBucket (hosts : list string) (key : string)
    (record : NetworkRequest) : bool :=
  strictEqString (determineResourceType record) key
  || String.eqb key "total"
  || (String.eqb key "third-party" && isThirdParty hosts record).

(** The [href] of a link when it is truthy. *)
Definition usableHref (e : LinkElement) : option string :=
  match href e with
  | Some h => if JsString.truthy h then Some h else None
  | None => None
  end.

(** The hrefs declared by the selected icon links, in document order. *)
Definition iconHrefs (LinkElements : list LinkElement) : list string :=
  omap usableHref (List.filter isIconLink LinkElements).

(** Field-wise sum of two summaries, bucket by bucket. *)
Definition mergeSummaries (s1 s2 : gmap string Entry.t) : gmap string Entry.t :=
  union_with (λ e1 e2, Some (plus e1 e2)) s1 s2.

(** ** compute_ *)

(** [NetworkRecords.request(devtoolsLog, context)] and
    [EntityClassification.request({URL, devtoolsLog}, context)], awaited;
    [None] when the promise is rejected. *)
Variable DevtoolsLog : Type.
Variable NetworkRecords_request : DevtoolsLog → option (list NetworkRequest).
Variable EntityClassification_request :
  URLArtifact → DevtoolsLog → option EntityClassification.

Definition compute_ (data : Data.t DevtoolsLog) : option (gmap string Entry.t) :=
  networkRecords ← NetworkRecords_request (Data.devtoolsLog data);
  classifiedEntities ←
    EntityClassification_request (Data.URL data) (Data.devtoolsLog data);
  summarize networkRecords (Data.URL data) (Data.budgets data)
    (Data.LinkElements data) classifiedEntities.

(** ** Facts about strings *)

Lemma append_nil (b : string) : EmptyString +:+ b = b.
Proof. reflexivity. Qed.

Lemma append_cons (c : ascii) (a b : string) :
  String c a +:+ b = String c (a +:+ b).
Proof. reflexivity. Qed.

Lemma length_append (a b : string) :
  String.length (a +:+ b) = (String.length a + String.length b)%nat.
Proof.
  induction a as [|ch a IH]; [done|].
  rewrite append_cons. simpl. by rewrite IH.
Qed.

Lemma substring_all (s : string) : String.substring 0 (String.length s) s = s.
Proof. induction s as [|ch s IH]; simpl; [done | by rewrite IH]. Qed.

Lemma substring_skip (a b : string) (m : nat) :
  String.substring (String.length a) m (a +:+ b) = String.substring 0 m b.
Proof.
  induction a as [|ch a IH]; [done|].
  rewrite append_cons. simpl. apply IH.
Qed.

Lemma substring_split (s : string) (n : nat) :
  (n ≤ String.length s)%nat →
  s = String.substring 0 n s +:+ String.substring n (String.length s - n) s.
Proof.
  revert n. induction s as [|ch s IH]; intros [|n] Hn; simpl in *.
  - done.
  - lia.
  - rewrite append_nil. by rewrite substring_all.
  - rewrite append_cons. f_equal. apply IH. lia.
Qed.

Lemma startsWith_iff (s search : string) :
  JsString.startsWith s search = true ↔ ∃ rest, s = search +:+ rest.
Proof.
  unfold JsString.startsWith. revert s.
  induction search as [|c search IH]; intros s.
  - split; [intros _; by exists s | intros _; by destruct s].
  - destruct s as [|d s]; simpl.
    + split; [done | intros [rest Hr]; discriminate].
    + destruct (ascii_dec c d) as [->|Hne].
      * rewrite IH. split; intros [rest Hr]; exists rest.
        -- rewrite append_cons. congruence.
        -- rewrite append_cons in Hr. congruence.
      * split; [done | intros [rest Hr]; rewrite append_cons in Hr; congruence].
Qed.

Lemma slice_append (a b : string) :
  JsString.slice (a +:+ b) (String.length a) = b.
Proof.
  unfold JsString.slice. rewrite substring_skip, length_append.
  replace (String.length a + String.length b - String.length a)%nat
    with (String.length b) by lia.
  apply substring_all.
Qed.

Lemma endsWith_iff (s search : string) :
  JsString.endsWith s search = true ↔ Spec.endsWith s search.
Proof.
  unfold JsString.endsWith, Spec.endsWith.
  destruct (Nat.ltb_spec (String.length s) (String.length search)) as [Hlt|Hge].
  - split; [done|]. intros [front ->]. rewrite length_append in Hlt. lia.
  - rewrite String.eqb_eq. split.
    + intros Hsub.
      exists (String.substring 0 (String.length s - String.length search) s).
      pose proof (substring_split s (String.length s - String.length search)
                    ltac:(lia)) as Hsplit.
      replace (String.length s - (String.length s - String.length search))%nat
        with (String.length search) in Hsplit by lia.
      by rewrite Hsub in Hsplit.
    + intros [front ->]. rewrite length_append.
      replace (String.length front + String.length search - String.length search)%nat
        with (String.length front) by lia.
      rewrite substring_skip. apply substring_all.
Qed.

Lemma includes_iff (arr : list string) (x : string) :
  JsString.includes arr x = true ↔ x ∈ arr.
Proof.
  unfold JsString.includes. rewrite existsb_exists, list_elem_of_In.
  split.
  - intros [y [Hy Heq]]. apply String.eqb_eq in Heq. by subst.
  - intros Hx. exists x. by rewrite String.eqb_refl.
Qed.

(** ** The resource classifier *)

Lemma requestToResourceType_Some (t v : string) :
  requestToResourceType !! t = Some v →
  (t, v) ∈ [ ("Stylesheet", "stylesheet"); ("Image", "image");
             ("Media", "media"); ("Font", "font"); ("Script", "script");
             ("Document", "document") ].
Proof. intros H. by apply elem_of_list_to_map_2 in H. Qed.

Lemma determineResourceType_range (record : NetworkRequest) (key : string) :
  determineResourceType record = VString key → key ∈ Spec.requestTypes.
Proof.
  unfold determineResourceType, Spec.requestTypes.
  destruct (resourceType record) as [t|]; [|intros [= <-]; in_list].
  destruct (JsString.truthy t); simpl; [|intros [= <-]; in_list].
  unfold getProperty.
  destruct (requestToResourceType !! t) as [v|] eqn:Hv.
  - apply requestToResourceType_Some in Hv.
    repeat (apply elem_of_cons in Hv as [[= -> ->]|Hv];
            [simpl; intros [= <-]; in_list|]).
    by apply elem_of_nil in Hv.
  - case_bool_decide; simpl; [done|]. intros [= <-]. in_list.
Qed.

Lemma determineResourceType_not_total (record : NetworkRequest) :
  determineResourceType record ≠ VString "total".
Proof.
  intros H. apply determineResourceType_range in H.
  unfold Spec.requestTypes in H. not_in_list H.
Qed.

Lemma determineResourceType_not_third_party (record : NetworkRequest) :
  determineResourceType record ≠ VString "third-party".
Proof.
  intros H. apply determineResourceType_range in H.
  unfold Spec.requestTypes in H. not_in_list H.
Qed.

Lemma determineResourceType_classify (record : NetworkRequest) :
  (∀ t, resourceType record = Some t → t ∉ objectPrototypeKeys) →
  determineResourceType record = VString (Spec.classify (resourceType record)).
Proof.
  intros Hproto. unfold determineResourceType, Spec.classify.
  destruct (resourceType record) as [t|]; [|done].
  specialize (Hproto t eq_refl).
  destruct t as [|c t']; [done|].
  simpl JsString.truthy. simpl negb. cbv iota.
  remember (String c t') as t eqn:Ht. clear Ht.
  destruct (String.eqb_spec t "Stylesheet") as [->|H1]; [done|].
  destruct (String.eqb_spec t "Image") as [->|H2]; [done|].
  destruct (String.eqb_spec t "Media") as [->|H3]; [done|].
  destruct (String.eqb_spec t "Font") as [->|H4]; [done|].
  destruct (String.eqb_spec t "Script") as [->|H5]; [done|].
  destruct (String.eqb_spec t "Document") as [->|H6]; [done|].
  assert (requestToResourceType !! t = None) as Hnone.
  { apply not_elem_of_list_to_map_1. simpl. intros Hin. not_in_list Hin. }
  unfold getProperty. rewrite Hnone.
  by rewrite bool_decide_eq_false_2.
Qed.

(** ** The favicon detector *)

Lemma isIconLink_iff (e : LinkElement) :
  isIconLink e = true ↔ rel e = "icon" ∨ rel e = "shortcut icon".
Proof.
  unfold isIconLink. rewrite orb_true_iff, !String.eqb_eq. tauto.
Qed.

Lemma pushIconUrls_mapM (m : string) (icons : list LinkElement)
    (urls : list string) :
  pushIconUrls m icons urls
  = (λ more, urls ++ more) <$> mapM (λ h, URL_href h m) (omap usableHref icons).
Proof.
  revert urls. induction icons as [|e icons IH]; intros urls; simpl.
  - by rewrite app_nil_r.
  - unfold usableHref at 1. destruct (href e) as [h|]; [|apply IH].
    destruct (JsString.truthy h); [|apply IH].
    simpl. destruct (URL_href h m) as [u|]; [|done].
    simpl. rewrite IH. destruct (mapM _ _) as [more|]; [|done].
    simpl. by rewrite <- app_assoc.
Qed.

Lemma absent_falsy (x : option string) :
  Spec.absent x ↔ match x with Some m => JsString.truthy m = false | None => True end.
Proof.
  unfold Spec.absent. destruct x as [[|c m]|]; simpl; split; try done; auto.
  - intros [H|H]; discriminate.
Qed.

(** ** The party classifier *)

Lemma hostMatches_iff (hostname hostExp : string) :
  hostMatches hostname hostExp = true ↔ Spec.patternMatches hostname hostExp.
Proof.
  unfold hostMatches, Spec.patternMatches.
  destruct (JsString.startsWith hostExp "*.") eqn:Hstar.
  - apply startsWith_iff in Hstar as [suffix ->].
    pose proof (slice_append "*." suffix) as Hslice.
    change (String.length "*.") with 2%nat in Hslice. rewrite Hslice.
    rewrite endsWith_iff. split.
    + intros Hends. left. by exists suffix.
    + intros [[suffix' [Heq Hends]]|[Hno _]].
      * by apply (inj (String.app "*.")) in Heq as <-.
      * by destruct (Hno suffix).
  - assert (∀ suffix, hostExp ≠ "*." +:+ suffix) as Hno.
    { intros suffix ->.
      assert (JsString.startsWith ("*." +:+ suffix) "*." = true) as Ht
        by (apply startsWith_iff; by exists suffix).
      congruence. }
    rewrite String.eqb_eq. split.
    + intros ->. by right.
    + intros [[suffix [-> _]]|[_ Heq]]; [by destruct (Hno suffix)|done].
Qed.

Lemma isFirstParty_parsed (hosts : list string) (record : NetworkRequest)
    (hostname : string) :
  URL_hostname (url record) = Some hostname →
  isFirstParty hosts record = Some (existsb (hostMatches hostname) hosts).
Proof.
  intros Hparse. induction hosts as [|hostExp hosts IH]; simpl; [done|].
  rewrite Hparse. destruct (hostMatches hostname hostExp); [done|apply IH].
Qed.

Lemma isFirstParty_is_Some (hosts : list string) (record : NetworkRequest) :
  is_Some (isFirstParty hosts record)
  ↔ hosts = [] ∨ is_Some (URL_hostname (url record)).
Proof.
  split.
  - destruct hosts as [|hostExp hosts]; [by left|]. simpl.
    destruct (URL_hostname (url record)); [by right; eexists|].
    by intros [? ?].
  - intros [->|[hostname Hparse]]; [by eexists|].
    rewrite (isFirstParty_parsed _ _ _ Hparse). by eexists.
Qed.

(** ** The aggregator *)

Lemma plus_entryOf_nil (e : Entry.t) : plus e (entryOf []) = e.
Proof. destruct e. unfold plus, entryOf. simpl. f_equal; lia. Qed.

Lemma plus_zero_l (e : Entry.t) : plus Entry.zero e = e.
Proof. by destruct e. Qed.

Lemma plus_entryOf_cons (e : Entry.t) (r : NetworkRequest)
    (rs : list NetworkRequest) :
  plus (addRecord e r) (entryOf rs) = plus e (entryOf (r :: rs)).
Proof.
  unfold plus, addRecord, entryOf. simpl length. simpl sumOf.
  simpl Entry.count. simpl Entry.resourceSize. simpl Entry.transferSize.
  f_equal; lia.
Qed.

Lemma strictEqString_true (v : value) (lit : string) :
  strictEqString v lit = true ↔ v = VString lit.
Proof.
  destruct v as [k|n]; simpl; [|done].
  rewrite String.eqb_eq. split; congruence.
Qed.

Lemma matchesBucket_total (hosts : list string) (r : NetworkRequest) :
  matchesBucket hosts "total" r = true.
Proof. unfold matchesBucket. simpl. by rewrite orb_true_r. Qed.

Lemma matchesBucket_third_party (hosts : list string) (r : NetworkRequest) :
  matchesBucket hosts "third-party" r = isThirdParty hosts r.
Proof.
  unfold matchesBucket.
  destruct (strictEqString (determineResourceType r) "third-party") eqn:Hty.
  - apply strictEqString_true in Hty.
    by destruct (determineResourceType_not_third_party r).
  - done.
Qed.

Lemma matchesBucket_type (hosts : list string) (key : string)
    (r : NetworkRequest) :
  key ≠ "total" → key ≠ "third-party" →
  matchesBucket hosts key r = strictEqString (determineResourceType r) key.
Proof.
  intros H1 H2. unfold matchesBucket.
  apply String.eqb_neq in H1, H2. rewrite H1, H2. simpl.
  by rewrite !orb_false_r.
Qed.

(** One call of the [forEach] callback changes exactly the buckets the
    record matches, each by one [addRecord]. *)
Lemma accumulate_lookup (hosts : list string) (s s' : gmap string Entry.t)
    (r : NetworkRequest) :
  accumulate hosts s r = Some s' →
  ∀ key, s' !! key
         = if matchesBucket hosts key r
           then (λ e, addRecord e r) <$> s !! key
           else s !! key.
Proof.
  unfold accumulate. intros Hacc key.
  pose proof (determineResourceType_not_total r) as Hnt.
  pose proof (determineResourceType_not_third_party r) as Hntp.
  destruct (determineResourceType r) as [tk|n] eqn:Hty; [|done].
  assert (tk ≠ "total") as Htk1 by congruence.
  assert (tk ≠ "third-party") as Htk2 by congruence.
  simpl in Hacc. unfold bump in Hacc.
  destruct (s !! tk) as [e1|] eqn:He1; [|done]. simpl in Hacc.
  rewrite lookup_insert_ne in Hacc by done.
  destruct (s !! "total") as [e2|] eqn:He2; [|done]. simpl in Hacc.
  unfold matchesBucket, isThirdParty. rewrite Hty. simpl strictEqString.
  destruct (isFirstParty hosts r) as [[|]|]; [| |done]; simpl in Hacc.
  - injection Hacc as <-.
    rewrite andb_false_r, orb_false_r.
    destruct (String.eqb_spec key "total") as [->|Hk1].
    + rewrite orb_true_r, lookup_insert_eq, He2. done.
    + rewrite orb_false_r, lookup_insert_ne by done.
      destruct (String.eqb_spec tk key) as [->|Hk2].
      * by rewrite lookup_insert_eq, He1.
      * by rewrite lookup_insert_ne.
  - rewrite !lookup_insert_ne in Hacc by done.
    destruct (s !! "third-party") as [e3|] eqn:He3; [|done].
    injection Hacc as <-.
    rewrite andb_true_r.
    destruct (String.eqb_spec key "third-party") as [->|Hk3].
    + rewrite orb_true_r, lookup_insert_eq, He3. done.
    + rewrite orb_false_r, lookup_insert_ne by done.
      destruct (String.eqb_spec key "total") as [->|Hk1].
      * rewrite orb_true_r, lookup_insert_eq, He2. done.
      * rewrite orb_false_r, lookup_insert_ne by done.
        destruct (String.eqb_spec tk key) as [->|Hk2].
        -- by rewrite lookup_insert_eq, He1.
        -- by rewrite lookup_insert_ne.
Qed.

(** The whole pass adds to each bucket the records that match it. *)
Lemma forEach_lookup (hosts : list string) (rs : list NetworkRequest) :
  ∀ s s', forEach hosts rs s = Some s' →
  ∀ key, s' !! key
         = (λ e, plus e (entryOf (List.filter (matchesBucket hosts key) rs)))
             <$> s !! key.
Proof.
  induction rs as [|r rs IH]; intros s s' Hrun key; simpl in Hrun.
  - injection Hrun as <-. simpl.
    destruct (s !! key) as [e|]; simpl; [|done]. by rewrite plus_entryOf_nil.
  - destruct (accumulate hosts s r) as [s1|] eqn:Hacc; [|done].
    rewrite (IH _ _ Hrun key), (accumulate_lookup _ _ _ _ Hacc key).
    simpl. destruct (matchesBucket hosts key r); [|done].
    destruct (s !! key) as [e|]; simpl; [|done].
    by rewrite plus_entryOf_cons.
Qed.

Lemma initialSummary_lookup (key : string) :
  key ∈ Spec.budgetResourceTypes → initialSummary !! key = Some Entry.zero.
Proof.
  intros Hkey. unfold Spec.budgetResourceTypes, Spec.requestTypes in Hkey.
  simpl in Hkey.
  repeat (apply elem_of_cons in Hkey as [->|Hkey]; [done|]).
  by apply elem_of_nil in Hkey.
Qed.

Lemma initialSummary_dom :
  dom initialSummary = list_to_set Spec.budgetResourceTypes.
Proof. unfold initialSummary. by rewrite dom_list_to_map_L. Qed.

Lemma forEach_dom (hosts : list string) (rs : list NetworkRequest)
    (s s' : gmap string Entry.t) :
  forEach hosts rs s = Some s' → dom s' = dom s.
Proof.
  intros Hrun. apply set_eq. intros key.
  rewrite !elem_of_dom, (forEach_lookup _ _ _ _ Hrun key).
  by rewrite fmap_is_Some.
Qed.

(** A record on which the [forEach] callback does not throw: its type is
    a string (a bucket name) and, when there are host patterns, its URL
    parses. *)
Lemma accumulate_is_Some (hosts : list string) (s : gmap string Entry.t)
    (r : NetworkRequest) :
  dom s = list_to_set Spec.budgetResourceTypes →
  is_Some (accumulate hosts s r)
  ↔ (∃ key, determineResourceType r = VString key)
    ∧ is_Some (isFirstParty hosts r).
Proof.
  intros Hdom.
  assert (∀ key, key ∈ Spec.budgetResourceTypes → is_Some (s !! key)) as Hkeys.
  { intros key Hkey. apply elem_of_dom. rewrite Hdom.
    by apply elem_of_list_to_set. }
  unfold accumulate.
  destruct (determineResourceType r) as [tk|n] eqn:Hty; simpl.
  - assert (tk ∈ Spec.budgetResourceTypes) as Htk.
    { apply determineResourceType_range in Hty.
      unfold Spec.budgetResourceTypes. apply elem_of_app. by left. }
    assert (tk ≠ "total") as Htk1.
    { intros ->. by destruct (determineResourceType_not_total r). }
    assert (tk ≠ "third-party") as Htk2.
    { intros ->. by destruct (determineResourceType_not_third_party r). }
    destruct (Hkeys tk Htk) as [e1 He1].
    destruct (Hkeys "total") as [e2 He2].
    { unfold Spec.budgetResourceTypes. apply elem_of_app. right.
      apply elem_of_cons. by left. }
    destruct (Hkeys "third-party") as [e3 He3].
    { unfold Spec.budgetResourceTypes. apply elem_of_app. right.
      apply elem_of_cons. right. apply elem_of_cons. by left. }
    unfold bump. rewrite He1. simpl.
    rewrite lookup_insert_ne by done. rewrite He2. simpl.
    destruct (isFirstParty hosts r) as [[|]|]; simpl.
    + split; [intros _; split; by eexists | intros _; by eexists].
    + rewrite !lookup_insert_ne by done. rewrite He3.
      split; [intros _; split; by eexists | intros _; by eexists].
    + split; [by intros [? ?] | by intros [_ [? ?]]].
  - split; [by intros [? ?] | by intros [[? ?] _]].
Qed.

Lemma accumulate_dom (hosts : list string) (s s' : gmap string Entry.t)
    (r : NetworkRequest) :
  accumulate hosts s r = Some s' → dom s' = dom s.
Proof.
  intros Hacc. apply (forEach_dom hosts [r]). simpl. by rewrite Hacc.
Qed.

Lemma forEach_is_Some (hosts : list string) (rs : list NetworkRequest) :
  ∀ s, dom s = list_to_set Spec.budgetResourceTypes →
  is_Some (forEach hosts rs s)
  ↔ Forall (λ r, (∃ key, determineResourceType r = VString key)
                 ∧ is_Some (isFirstParty hosts r)) rs.
Proof.
  induction rs as [|r rs IH]; intros s Hdom; simpl.
  - split; [by constructor | by eexists].
  - rewrite Forall_cons. rewrite <- (accumulate_is_Some hosts s r Hdom).
    destruct (accumulate hosts s r) as [s1|] eqn:Hacc.
    + rewrite IH; [|by rewrite (accumulate_dom _ _ _ _ Hacc)].
      split; [intros H; split; [by eexists | done] | by intros [_ H]].
    + split; [by intros [? ?] | by intros [[? ?] _]].
Qed.

Lemma summarize_Some (networkRecords : list NetworkRequest) (URL : URLArtifact)
    (budgets : option (list Budget)) (LinkElements : list LinkElement)
    (classifiedEntities : EntityClassification) (hosts faviconUrls : list string) :
  firstPartyHosts (getMatchingBudget budgets (mainDocumentUrl URL))
    classifiedEntities URL = Some hosts →
  determineFaviconUrls LinkElements (mainDocumentUrl URL) = Some faviconUrls →
  summarize networkRecords URL budgets LinkElements classifiedEntities
  = forEach hosts (List.filter (keepRecord faviconUrls) networkRecords)
      initialSummary.
Proof. intros Hh Hf. unfold summarize. rewrite Hh. simpl. by rewrite Hf. Qed.

Lemma summarize_lookup (networkRecords : list NetworkRequest) (URL : URLArtifact)
    (budgets : option (list Budget)) (LinkElements : list LinkElement)
    (classifiedEntities : EntityClassification) (hosts faviconUrls : list string)
    (s : gmap string Entry.t) (key : string) :
  firstPartyHosts (getMatchingBudget budgets (mainDocumentUrl URL))
    classifiedEntities URL = Some hosts →
  determineFaviconUrls LinkElements (mainDocumentUrl URL) = Some faviconUrls →
  summarize networkRecords URL budgets LinkElements classifiedEntities = Some s →
  key ∈ Spec.budgetResourceTypes →
  s !! key
  = Some (entryOf (List.filter (matchesBucket hosts key)
                     (List.filter (keepRecord faviconUrls) networkRecords))).
Proof.
  intros Hh Hf Hs Hkey. rewrite (summarize_Some _ _ _ _ _ _ _ Hh Hf) in Hs.
  rewrite (forEach_lookup _ _ _ _ Hs key), (initialSummary_lookup key Hkey).
  simpl. by rewrite plus_zero_l.
Qed.

(** Past the call of [Budget.getMatchingBudget], [summarize] returns
    exactly when neither the resolution of the host patterns, nor that of
    the favicon URLs, nor the callback on a surviving record throws. *)
Lemma summarize_is_Some (networkRecords : list NetworkRequest) (URL : URLArtifact)
    (budgets : option (list Budget)) (LinkElements : list LinkElement)
    (classifiedEntities : EntityClassification) :
  is_Some (summarize networkRecords URL budgets LinkElements classifiedEntities)
  ↔ ∃ hosts faviconUrls,
      firstPartyHosts (getMatchingBudget budgets (mainDocumentUrl URL))
        classifiedEntities URL = Some hosts
      ∧ determineFaviconUrls LinkElements (mainDocumentUrl URL) = Some faviconUrls
      ∧ Forall (λ r, (∃ key, determineResourceType r = VString key)
                     ∧ (hosts = [] ∨ is_Some (URL_hostname (url r))))
          (List.filter (keepRecord faviconUrls) networkRecords).
Proof.
  assert (∀ hosts rs,
    Forall (λ r, (∃ key, determineResourceType r = VString key)
                 ∧ is_Some (isFirstParty hosts r)) rs
    ↔ Forall (λ r, (∃ key, determineResourceType r = VString key)
                   ∧ (hosts = [] ∨ is_Some (URL_hostname (url r)))) rs) as Hwf.
  { intros hosts rs. apply Forall_proper; [|done].
    intros r. by rewrite isFirstParty_is_Some. }
  split.
  - intros Hs. unfold summarize in Hs.
    destruct (firstPartyHosts _ _ _) as [hosts|] eqn:Hh; [|by destruct Hs].
    destruct (determineFaviconUrls _ _) as [faviconUrls|] eqn:Hf;
      [|by destruct Hs].
    simpl in Hs. exists hosts, faviconUrls. split; [done|]. split; [done|].
    apply Hwf. by apply forEach_is_Some in Hs; [|apply initialSummary_dom].
  - intros (hosts & faviconUrls & Hh & Hf & Hall).
    rewrite (summarize_Some _ _ _ _ _ _ _ Hh Hf).
    apply forEach_is_Some; [apply initialSummary_dom | by apply Hwf].
Qed.

Lemma filter_all {A : Type} (f : A → bool) (l : list A) :
  (∀ x, f x = true) → List.filter f l = l.
Proof.
  intros Hf. induction l as [|x l IH]; simpl; [done|].
  by rewrite Hf, IH.
Qed.

Lemma filter_none {A : Type} (f : A → bool) (l : list A) :
  (∀ x, x ∈ l → f x = false) → List.filter f l = [].
Proof.
  induction l as [|x l IH]; intros Hf; simpl; [done|].
  rewrite (Hf x) by (apply elem_of_cons; by left).
  apply IH. intros y Hy. apply Hf. apply elem_of_cons. by right.
Qed.

Lemma filter_same {A : Type} (f g : A → bool) (l : list A) :
  Forall (λ x, f x = g x) l → List.filter f l = List.filter g l.
Proof.
  induction 1 as [|x l Hx _ IH]; simpl; [done|]. by rewrite Hx, IH.
Qed.

Lemma isThirdParty_negb (hosts : list string) (r : NetworkRequest) :
  is_Some (isFirstParty hosts r) → isThirdParty hosts r = negb (isFirst hosts r).
Proof.
  unfold isThirdParty, isFirst. by intros [[|] ->].
Qed.

Lemma filter_partition_length {A : Type} (f : A → bool) (l : list A) :
  (length (List.filter (λ x, negb (f x)) l) + length (List.filter f l)
   = length l)%nat.
Proof.
  induction l as [|x l IH]; simpl; [done|].
  destruct (f x); simpl; lia.
Qed.

Lemma entryOf_nonneg (rs : list NetworkRequest) :
  Forall (λ r, 0 ≤ resourceSize r ∧ 0 ≤ transferSize r) rs →
  0 ≤ Entry.count (entryOf rs)
  ∧ 0 ≤ Entry.resourceSize (entryOf rs)
  ∧ 0 ≤ Entry.transferSize (entryOf rs).
Proof.
  unfold entryOf. simpl. intros Hall. split; [lia|].
  induction Hall as [|r rs [Hr Ht] _ [IH1 IH2]]; simpl; lia.
Qed.

Lemma Forall_filter {A : Type} (P : A → Prop) (f : A → bool) (l : list A) :
  Forall P l → Forall P (List.filter f l).
Proof.
  induction 1 as [|x l Hx _ IH]; simpl; [done|].
  destruct (f x); [by constructor | done].
Qed.

Lemma keepRecord_false_iff (faviconUrls : list string) (record : NetworkRequest) :
  keepRecord faviconUrls record = false
  ↔ (determineResourceType record = VString "other"
     ∧ url record ∈ faviconUrls)
    ∨ isNonNetworkRequest record = true.
Proof.
  unfold keepRecord.
  rewrite <- strictEqString_true, <- includes_iff.
  destruct (strictEqString _ _), (JsString.includes _ _),
    (isNonNetworkRequest record); simpl; intuition congruence.
Qed.

(** ** The claims *)

(** C1. For every input, the "total" bucket of the returned summary has
    the number of records that survive the exclusion filter as its count,
    and the sums of their [resourceSize] and [transferSize] as its sizes
    ([entryOf] of the surviving records). *)
Theorem C1_total_bucket (networkRecords : list NetworkRequest)
    (URL : URLArtifact) (budgets : option (list Budget))
    (LinkElements : list LinkElement)
    (classifiedEntities : EntityClassification)
    (faviconUrls : list string) (s : gmap string Entry.t) :
  determineFaviconUrls LinkElements (mainDocumentUrl URL) = Some faviconUrls →
  summarize networkRecords URL budgets LinkElements classifiedEntities = Some s →
  s !! "total"
  = Some (entryOf (List.filter (keepRecord faviconUrls) networkRecords)).
Proof.
  intros Hf Hs.
  destruct (firstPartyHosts (getMatchingBudget budgets (mainDocumentUrl URL))
              classifiedEntities URL) as [hosts|] eqn:Hh.
  - rewrite (summarize_lookup _ _ _ _ _ _ _ _ "total" Hh Hf Hs).
    + rewrite (filter_all _ _ (matchesBucket_total hosts)). done.
    + unfold Spec.budgetResourceTypes. apply elem_of_app. right.
      apply elem_of_cons. by left.
  - unfold summarize in Hs. by rewrite Hh in Hs.
Qed.

(** C2. The filter drops a record exactly when it is classified "other"
    and its URL is one of the favicon URLs, or when the non-network
    predicate holds for it. A record whose URL is a favicon URL but whose
    type is not "other" is kept (unless it is a non-network request), and
    the surviving records are the kept ones. *)
Theorem C2_filter_rule (faviconUrls : list string) (record : NetworkRequest) :
  (keepRecord faviconUrls record = false
   ↔ (determineResourceType record = VString "other"
      ∧ url record ∈ faviconUrls)
     ∨ isNonNetworkRequest record = true)
  ∧ (url record ∈ faviconUrls →
     determineResourceType record ≠ VString "other" →
     isNonNetworkRequest record = false →
     keepRecord faviconUrls record = true)
  ∧ (∀ networkRecords,
       record ∈ List.filter (keepRecord faviconUrls) networkRecords
       ↔ record ∈ networkRecords ∧ keepRecord faviconUrls record = true).
Proof.
  split; [apply keepRecord_false_iff|]. split.
  - intros Hin Hty Hnet.
    destruct (keepRecord faviconUrls record) eqn:Hkeep; [done|].
    apply keepRecord_false_iff in Hkeep as [[Hother _]|Hnon]; congruence.
  - intros networkRecords. rewrite !list_elem_of_In. apply filter_In.
Qed.

(** C3. Given the hostname of the request URL, the membership test returns
    true exactly when some pattern of the list matches: a pattern [*.suffix]
    matches the hostnames that end with [suffix], any other pattern matches
    only the hostname equal to it. *)
Theorem C3_first_party_membership (hosts : list string)
    (record : NetworkRequest) (hostname : string) :
  URL_hostname (url record) = Some hostname →
  ∃ b, isFirstParty hosts record = Some b
       ∧ (b = true ↔ Spec.isFirstParty hostname hosts).
Proof.
  intros Hparse. exists (existsb (hostMatches hostname) hosts).
  split; [by apply isFirstParty_parsed|].
  unfold Spec.isFirstParty. rewrite existsb_exists.
  split; intros [pattern [Hin Hm]]; exists pattern.
  - by rewrite list_elem_of_In, <- hostMatches_iff.
  - by rewrite <- list_elem_of_In, hostMatches_iff.
Qed.


Lemma mapM_elem_of {A B : Type} (f : A → option B) (l : list A) (k : list B) :
  mapM f l = Some k → ∀ y, y ∈ k ↔ ∃ x, x ∈ l ∧ f x = Some y.
Proof.
  rewrite mapM_Some. induction 1 as [|x y l k Hxy _ IH]; intros z.
  - split; [intros Hz; by apply elem_of_nil in Hz|].
    intros [x [Hx _]]. by apply elem_of_nil in Hx.
  - rewrite elem_of_cons, IH. split.
    + intros [->|[x' [Hx' Hf]]].
      * exists x. split; [apply elem_of_cons; by left | done].
      * exists x'. split; [apply elem_of_cons; by right | done].
    + intros [x' [Hx' Hf]]. apply elem_of_cons in Hx' as [->|Hx'].
      * left. congruence.
      * right. by exists x'.
Qed.

Lemma iconHrefs_elem_of (LinkElements : list LinkElement) (h : string) :
  h ∈ iconHrefs LinkElements
  ↔ ∃ e, e ∈ LinkElements ∧ isIconLink e = true ∧ href e = Some h
         ∧ h ≠ EmptyString.
Proof.
  unfold iconHrefs. rewrite list_elem_of_omap. split.
  - intros [e [He Hu]]. exists e.
    apply list_elem_of_In, filter_In in He as [He Hicon].
    apply list_elem_of_In in He. unfold usableHref in Hu.
    destruct (href e) as [h'|]; [|done].
    destruct h' as [|c h']; simpl in Hu; [done|].
    injection Hu as <-. done.
  - intros (e & He & Hicon & Hh & Hne). exists e. split.
    + apply list_elem_of_In, filter_In. by rewrite <- list_elem_of_In.
    + unfold usableHref. rewrite Hh. by destruct h.
Qed.

(** C5. The favicon URLs are: none when [mainDocumentUrl] is absent;
    otherwise, when no link is selected as an icon link, the single URL
    "/favicon.ico" resolved against [mainDocumentUrl]; otherwise the hrefs
    of the selected links, each resolved against [mainDocumentUrl], the
    links without an href being skipped and nothing else being added. *)
Theorem C5_favicon_candidates (LinkElements : list LinkElement)
    (mainDocumentUrl : option string) :
  (Spec.absent mainDocumentUrl →
   determineFaviconUrls LinkElements mainDocumentUrl = Some [])
  ∧ (∀ m, mainDocumentUrl = Some m → m ≠ EmptyString →
       (List.filter isIconLink LinkElements = [] →
        determineFaviconUrls LinkElements mainDocumentUrl
        = (λ u, [u]) <$> URL_href "/favicon.ico" m)
       ∧ (List.filter isIconLink LinkElements ≠ [] →
          determineFaviconUrls LinkElements mainDocumentUrl
          = mapM (λ h, URL_href h m) (iconHrefs LinkElements)
          ∧ ∀ urls, determineFaviconUrls LinkElements mainDocumentUrl = Some urls →
              ∀ u, u ∈ urls
                   ↔ ∃ e h, e ∈ LinkElements ∧ isIconLink e = true
                            ∧ href e = Some h ∧ h ≠ EmptyString
                            ∧ URL_href h m = Some u)).
Proof.
  split.
  - intros Habs. apply absent_falsy in Habs. unfold determineFaviconUrls.
    destruct mainDocumentUrl as [m|]; [|done]. by rewrite Habs.
  - intros m -> Hm. unfold determineFaviconUrls.
    destruct m as [|c m]; [done|]. simpl JsString.truthy. simpl negb. cbv iota.
    split.
    + intros ->. simpl. by destruct (URL_href _ _).
    + intros Hicons.
      assert (determineFaviconUrls LinkElements (Some (String c m))
              = mapM (λ h, URL_href h (String c m)) (iconHrefs LinkElements))
        as Heq.
      { unfold determineFaviconUrls. simpl JsString.truthy. simpl negb. cbv iota.
        destruct (List.filter isIconLink LinkElements) as [|e icons] eqn:Hfilter;
          [done|].
        simpl length. simpl Nat.eqb. cbv iota.
        rewrite pushIconUrls_mapM. unfold iconHrefs. rewrite Hfilter.
        by destruct (mapM _ _). }
      unfold determineFaviconUrls in Heq. simpl in Heq.
      split; [exact Heq|].
      intros urls Hurls u. rewrite Heq in Hurls.
      rewrite (mapM_elem_of _ _ _ Hurls u). split.
      * intros [h [Hh Hu]]. apply iconHrefs_elem_of in Hh as (e & ? & ? & ? & ?).
        by exists e, h.
      * intros (e & h & ? & ? & ? & ? & ?). exists h. split; [|done].
        apply iconHrefs_elem_of. by exists e.
Qed.

(** C6, as amended. A link is selected as an icon link exactly when its
    [rel] is, as it stands and case-sensitively, "icon" or
    "shortcut icon"; no whitespace is trimmed. Every selected link also
    satisfies the trimmed test. *)
Theorem C6_icon_link_exact (e : LinkElement) :
  (isIconLink e = true ↔ rel e = "icon" ∨ rel e = "shortcut icon")
  ∧ (isIconLink e = true → Spec.isIconLink e).
Proof.
  split; [apply isIconLink_iff|].
  intros He. apply isIconLink_iff in He. unfold Spec.isIconLink.
  destruct He as [->| ->]; [by left | by right].
Qed.

Lemma total_elem : "total" ∈ Spec.budgetResourceTypes.
Proof.
  unfold Spec.budgetResourceTypes. apply elem_of_app. right.
  apply elem_of_cons. by left.
Qed.

Lemma third_party_elem : "third-party" ∈ Spec.budgetResourceTypes.
Proof.
  unfold Spec.budgetResourceTypes. apply elem_of_app. right.
  apply elem_of_cons. right. apply elem_of_cons. by left.
Qed.

(** The records for which the membership test was evaluated by a pass
    that returned all have an answer. *)
Lemma forEach_answers (hosts : list string) (rs : list NetworkRequest) :
  is_Some (forEach hosts rs initialSummary) →
  Forall (λ r, isThirdParty hosts r = negb (isFirst hosts r)) rs.
Proof.
  intros Hs. apply forEach_is_Some in Hs; [|apply initialSummary_dom].
  eapply Forall_impl; [exact Hs|]. simpl. intros r [_ Hfp].
  by apply isThirdParty_negb.
Qed.

(** C7. In the returned summary the count of the "third-party" bucket
    plus the number of surviving first-party records is the count of the
    "total" bucket, and the "third-party" bucket holds the count and the
    size sums of the surviving records that are not first-party. *)
Theorem C7_third_party_complement (networkRecords : list NetworkRequest)
    (URL : URLArtifact) (budgets : option (list Budget))
    (LinkElements : list LinkElement)
    (classifiedEntities : EntityClassification)
    (hosts faviconUrls : list string) (s : gmap string Entry.t) :
  firstPartyHosts (getMatchingBudget budgets (mainDocumentUrl URL))
    classifiedEntities URL = Some hosts →
  determineFaviconUrls LinkElements (mainDocumentUrl URL) = Some faviconUrls →
  summarize networkRecords URL budgets LinkElements classifiedEntities = Some s →
  ∃ thirdParty total,
    s !! "third-party" = Some thirdParty
    ∧ s !! "total" = Some total
    ∧ Entry.count thirdParty
      + Z.of_nat (length (List.filter (isFirst hosts)
                            (List.filter (keepRecord faviconUrls) networkRecords)))
      = Entry.count total
    ∧ thirdParty
      = entryOf (List.filter (λ r, negb (isFirst hosts r))
                   (List.filter (keepRecord faviconUrls) networkRecords)).
Proof.
  intros Hh Hf Hs.
  pose proof (summarize_lookup _ _ _ _ _ _ _ _ _ Hh Hf Hs third_party_elem) as Htp.
  pose proof (summarize_lookup _ _ _ _ _ _ _ _ _ Hh Hf Hs total_elem) as Htot.
  rewrite (filter_all _ _ (matchesBucket_total hosts)) in Htot.
  assert (is_Some (forEach hosts
                     (List.filter (keepRecord faviconUrls) networkRecords)
                     initialSummary)) as Hrun.
  { rewrite <- (summarize_Some _ _ _ _ _ _ _ Hh Hf). by eexists. }
  apply forEach_answers in Hrun.
  rewrite (filter_same (matchesBucket hosts "third-party")
             (λ r, negb (isFirst hosts r))) in Htp.
  - eexists _, _. split; [exact Htp|]. split; [exact Htot|]. split; [|done].
    unfold entryOf. simpl.
    pose proof (filter_partition_length (isFirst hosts)
                  (List.filter (keepRecord faviconUrls) networkRecords)).
    lia.
  - eapply Forall_impl; [exact Hrun|]. simpl. intros r Hr.
    by rewrite matchesBucket_third_party.
Qed.

(** C8. The classifier is a total function and never returns "total" or
    "third-party". A record without a [resourceType] is "other";
    Stylesheet, Image, Media, Font, Script and Document map to their
    buckets and every other value maps to "other" ([Spec.classify]), for
    every resource type the record can carry: any string that is not the
    name of a property of [Object.prototype], which no resource type of the
    protocol is. *)
Theorem C8_classifier_table (record : NetworkRequest) :
  determineResourceType record ≠ VString "total"
  ∧ determineResourceType record ≠ VString "third-party"
  ∧ (resourceType record = None →
     determineResourceType record = VString "other")
  ∧ ((∀ t, resourceType record = Some t → t ∉ objectPrototypeKeys) →
     determineResourceType record
     = VString (Spec.classify (resourceType record))).
Proof.
  split; [apply determineResourceType_not_total|].
  split; [apply determineResourceType_not_third_party|].
  split.
  - intros Hnone. unfold determineResourceType. by rewrite Hnone.
  - apply determineResourceType_classify.
Qed.

(** C9. The summary [summarize] returns, on any input and also on an
    empty record list, has exactly the nine keys; with non-negative input
    sizes every entry has a non-negative count and non-negative sizes; a
    bucket that no surviving record matches holds zeros; with no record at
    all every bucket holds zeros. *)
Theorem C9_nine_buckets (networkRecords : list NetworkRequest)
    (URL : URLArtifact) (budgets : option (list Budget))
    (LinkElements : list LinkElement)
    (classifiedEntities : EntityClassification)
    (hosts faviconUrls : list string) (s : gmap string Entry.t) :
  firstPartyHosts (getMatchingBudget budgets (mainDocumentUrl URL))
    classifiedEntities URL = Some hosts →
  determineFaviconUrls LinkElements (mainDocumentUrl URL) = Some faviconUrls →
  summarize networkRecords URL budgets LinkElements classifiedEntities
  = Some s →
  dom s = list_to_set Spec.budgetResourceTypes
  ∧ (Forall (λ r, 0 ≤ resourceSize r ∧ 0 ≤ transferSize r) networkRecords →
     ∀ key e, s !! key = Some e →
       0 ≤ Entry.count e ∧ 0 ≤ Entry.resourceSize e
       ∧ 0 ≤ Entry.transferSize e)
  ∧ (∀ key, key ∈ Spec.budgetResourceTypes →
       (∀ r, r ∈ List.filter (keepRecord faviconUrls) networkRecords →
             matchesBucket hosts key r = false) →
       s !! key = Some Entry.zero)
  ∧ (networkRecords = [] →
     ∀ key, key ∈ Spec.budgetResourceTypes → s !! key = Some Entry.zero).
Proof.
  intros Hh Hf Hs.
  assert (dom s = list_to_set Spec.budgetResourceTypes) as Hdom.
  { pose proof Hs as Hrun.
    rewrite (summarize_Some _ _ _ _ _ _ _ Hh Hf) in Hrun.
    apply forEach_dom in Hrun. rewrite Hrun. apply initialSummary_dom. }
  split; [done|]. split; [|split].
  - intros Hsizes key e He.
    assert (key ∈ Spec.budgetResourceTypes) as Hkey.
    { apply (elem_of_list_to_set (C:=gset string)).
      rewrite <- Hdom. apply elem_of_dom. by eexists. }
    rewrite (summarize_lookup _ _ _ _ _ _ _ _ _ Hh Hf Hs Hkey) in He.
    injection He as <-. apply entryOf_nonneg. by do 2 apply Forall_filter.
  - intros key Hkey Hnone.
    rewrite (summarize_lookup _ _ _ _ _ _ _ _ _ Hh Hf Hs Hkey).
    by rewrite (filter_none _ _ Hnone).
  - intros -> key Hkey.
    by rewrite (summarize_lookup _ _ _ _ _ _ _ _ _ Hh Hf Hs Hkey).
Qed.

(** C10. When no matching budget supplies [firstPartyHostnames] and the
    first-party entity has an empty list of domains, the host patterns are
    the empty list (no fallback to the root domain), and every surviving
    record is counted in the "third-party" bucket. *)
Theorem C10_empty_entity_domains (networkRecords : list NetworkRequest)
    (URL : URLArtifact) (budgets : option (list Budget))
    (LinkElements : list LinkElement)
    (classifiedEntities : EntityClassification) (entity : Entity)
    (faviconUrls : list string) (s : gmap string Entry.t) :
  optionalFirstPartyHostnames (getMatchingBudget budgets (mainDocumentUrl URL))
  = None →
  firstParty classifiedEntities = Some entity →
  domains entity = [] →
  determineFaviconUrls LinkElements (mainDocumentUrl URL) = Some faviconUrls →
  summarize networkRecords URL budgets LinkElements classifiedEntities = Some s →
  firstPartyHosts (getMatchingBudget budgets (mainDocumentUrl URL))
    classifiedEntities URL = Some []
  ∧ s !! "third-party"
    = Some (entryOf (List.filter (keepRecord faviconUrls) networkRecords))
  ∧ s !! "third-party" = s !! "total".
Proof.
  intros Hb He Hd Hf Hs.
  assert (firstPartyHosts (getMatchingBudget budgets (mainDocumentUrl URL))
            classifiedEntities URL = Some []) as Hh.
  { unfold firstPartyHosts. by rewrite Hb, He, Hd. }
  split; [done|].
  pose proof (summarize_lookup _ _ _ _ _ _ _ _ _ Hh Hf Hs third_party_elem) as Htp.
  pose proof (summarize_lookup _ _ _ _ _ _ _ _ _ Hh Hf Hs total_elem) as Htot.
  rewrite (filter_all _ _ (matchesBucket_total [])) in Htot.
  rewrite filter_all in Htp.
  - by rewrite Htp, Htot.
  - intros r. by rewrite matchesBucket_third_party.
Qed.

(** ** Further properties of the aggregator *)

Lemma plus_comm (e1 e2 : Entry.t) : plus e1 e2 = plus e2 e1.
Proof. unfold plus. f_equal; lia. Qed.

Lemma plus_assoc (e1 e2 e3 : Entry.t) :
  plus e1 (plus e2 e3) = plus (plus e1 e2) e3.
Proof. unfold plus. simpl. f_equal; lia. Qed.

Lemma sumOf_app (f : NetworkRequest → Z) (l1 l2 : list NetworkRequest) :
  sumOf f (l1 ++ l2) = sumOf f l1 + sumOf f l2.
Proof. induction l1 as [|r l1 IH]; simpl; [done | rewrite IH; lia]. Qed.

Lemma entryOf_app (l1 l2 : list NetworkRequest) :
  entryOf (l1 ++ l2) = plus (entryOf l1) (entryOf l2).
Proof.
  unfold entryOf, plus. simpl. rewrite length_app, !sumOf_app.
  f_equal. lia.
Qed.

Lemma entryOf_cons (r : NetworkRequest) (rs : list NetworkRequest) :
  entryOf (r :: rs) = plus (entryOf [r]) (entryOf rs).
Proof. apply (entryOf_app [r] rs). Qed.

Lemma sumOf_perm (f : NetworkRequest → Z) (l l' : list NetworkRequest) :
  l ≡ₚ l' → sumOf f l = sumOf f l'.
Proof. induction 1; simpl; lia. Qed.

Lemma entryOf_perm (l l' : list NetworkRequest) :
  l ≡ₚ l' → entryOf l = entryOf l'.
Proof.
  intros Hp. unfold entryOf.
  by rewrite (Permutation_length Hp), (sumOf_perm _ _ _ Hp),
    (sumOf_perm _ _ _ Hp).
Qed.

Lemma filter_perm {A : Type} (f : A → bool) (l l' : list A) :
  l ≡ₚ l' → List.filter f l ≡ₚ List.filter f l'.
Proof.
  induction 1 as [|x l l' _ IH|x y l|l l' l'' _ IH1 _ IH2]; simpl.
  - done.
  - destruct (f x); [by constructor | done].
  - destruct (f x), (f y); try done. apply perm_swap.
  - by etrans.
Qed.

Lemma initialSummary_Some (key : string) (e : Entry.t) :
  initialSummary !! key = Some e →
  e = Entry.zero ∧ key ∈ Spec.budgetResourceTypes.
Proof.
  intros H. apply elem_of_list_to_map_2 in H.
  repeat (apply elem_of_cons in H as [[= -> ->]|H]; [split; [done | in_list]|]).
  by apply elem_of_nil in H.
Qed.

(** The buckets after a pass that started from the zero summary. *)
Lemma forEach_initial (hosts : list string) (rs : list NetworkRequest)
    (s : gmap string Entry.t) (key : string) :
  forEach hosts rs initialSummary = Some s →
  s !! key
  = (λ _, entryOf (List.filter (matchesBucket hosts key) rs))
      <$> initialSummary !! key.
Proof.
  intros Hrun. rewrite (forEach_lookup _ _ _ _ Hrun key).
  destruct (initialSummary !! key) as [e|] eqn:He; [|done].
  apply initialSummary_Some in He as [-> _]. simpl. by rewrite plus_zero_l.
Qed.

Lemma request_type_elem (key : string) :
  key ∈ Spec.requestTypes →
  key ∈ Spec.budgetResourceTypes ∧ key ≠ "total" ∧ key ≠ "third-party".
Proof.
  intros Hkey. split.
  - unfold Spec.budgetResourceTypes. apply elem_of_app. by left.
  - unfold Spec.requestTypes in Hkey.
    split; intros ->; not_in_list Hkey.
Qed.

(** The host patterns are resolved whenever [summarize] returns. *)
Lemma summarize_hosts (networkRecords : list NetworkRequest) (URL : URLArtifact)
    (budgets : option (list Budget)) (LinkElements : list LinkElement)
    (classifiedEntities : EntityClassification) (s : gmap string Entry.t) :
  summarize networkRecords URL budgets LinkElements classifiedEntities = Some s →
  ∃ hosts,
    firstPartyHosts (getMatchingBudget budgets (mainDocumentUrl URL))
      classifiedEntities URL = Some hosts.
Proof.
  unfold summarize. intros Hs.
  destruct (firstPartyHosts _ _ _) as [hosts|]; [by exists hosts | done].
Qed.

(** X1. In the returned summary, each of the seven per-request buckets
    holds the count and the size sums of the surviving records the
    classifier maps to that bucket. *)
Theorem X1_type_bucket (networkRecords : list NetworkRequest)
    (URL : URLArtifact) (budgets : option (list Budget))
    (LinkElements : list LinkElement)
    (classifiedEntities : EntityClassification)
    (faviconUrls : list string) (s : gmap string Entry.t) (key : string) :
  determineFaviconUrls LinkElements (mainDocumentUrl URL) = Some faviconUrls →
  summarize networkRecords URL budgets LinkElements classifiedEntities = Some s →
  key ∈ Spec.requestTypes →
  s !! key
  = Some (entryOf
            (List.filter
               (λ r, strictEqString (determineResourceType r) key)
               (List.filter (keepRecord faviconUrls) networkRecords))).
Proof.
  intros Hf Hs Hkey.
  destruct (summarize_hosts _ _ _ _ _ _ Hs) as [hosts Hh].
  destruct (request_type_elem key Hkey) as (Hin & Ht & Htp).
  rewrite (summarize_lookup _ _ _ _ _ _ _ _ _ Hh Hf Hs Hin).
  do 2 f_equal. apply filter_same, Forall_forall. intros r _.
  by apply matchesBucket_type.
Qed.

(** Adding one record to the seven per-type entries of a list of keys
    without duplicates. *)
Lemma type_entries_cons (keys : list string) (k : string)
    (r : NetworkRequest) (rs : list NetworkRequest) :
  NoDup keys → determineResourceType r = VString k →
  foldr plus Entry.zero
    (map (λ key, entryOf (List.filter
                            (λ r, strictEqString (determineResourceType r) key)
                            (r :: rs))) keys)
  = plus (if bool_decide (k ∈ keys) then entryOf [r] else Entry.zero)
      (foldr plus Entry.zero
         (map (λ key, entryOf (List.filter
                                 (λ r, strictEqString (determineResourceType r) key)
                                 rs)) keys)).
Proof.
  intros Hnd Hk. induction Hnd as [|key keys Hnotin Hnd IH];
    cbn [List.map fold_right].
  - by rewrite plus_zero_l.
  - rewrite IH. cbn [List.filter]. rewrite Hk. simpl strictEqString.
    destruct (String.eqb_spec k key) as [->|Hne].
    + rewrite (bool_decide_eq_true_2 (key ∈ key :: keys))
        by (apply elem_of_cons; by left).
      rewrite (bool_decide_eq_false_2 (key ∈ keys)) by done.
      rewrite plus_zero_l, entryOf_cons. by rewrite plus_assoc.
    + destruct (bool_decide (k ∈ keys)) eqn:Hin.
      * apply bool_decide_eq_true_1 in Hin.
        rewrite (bool_decide_eq_true_2 (k ∈ key :: keys))
          by (apply elem_of_cons; by right).
        rewrite !plus_assoc. f_equal. apply plus_comm.
      * apply bool_decide_eq_false_1 in Hin.
        rewrite (bool_decide_eq_false_2 (k ∈ key :: keys));
          [by rewrite !plus_zero_l|].
        intros [?|?]%elem_of_cons; congruence.
Qed.

Lemma type_entries_total (rs : list NetworkRequest) :
  Forall (λ r, ∃ key, determineResourceType r = VString key) rs →
  foldr plus Entry.zero
    (map (λ key, entryOf (List.filter
                            (λ r, strictEqString (determineResourceType r) key)
                            rs)) Spec.requestTypes)
  = entryOf rs.
Proof.
  induction 1 as [|r rs [k Hk] _ IH].
  - done.
  - rewrite (type_entries_cons _ k r rs); [|by compute_done|done].
    rewrite IH. rewrite bool_decide_eq_true_2.
    + by rewrite <- entryOf_cons.
    + by apply determineResourceType_range in Hk.
Qed.

(** X2. The seven per-request buckets of the returned summary add up to
    its "total" bucket, in count and in both sizes: every surviving record
    is counted under exactly one resource type. *)
Theorem X2_type_buckets_partition_total (networkRecords : list NetworkRequest)
    (URL : URLArtifact) (budgets : option (list Budget))
    (LinkElements : list LinkElement)
    (classifiedEntities : EntityClassification) (s : gmap string Entry.t) :
  summarize networkRecords URL budgets LinkElements classifiedEntities = Some s →
  ∃ entries,
    mapM (λ key, s !! key) Spec.requestTypes = Some entries
    ∧ s !! "total" = Some (foldr plus Entry.zero entries).
Proof.
  intros Hs.
  destruct (proj1 (summarize_is_Some _ _ _ _ _) (ex_intro _ s Hs))
    as (hosts & faviconUrls & Hh & Hf & Hwf).
  exists (map (λ key, entryOf
                 (List.filter (λ r, strictEqString (determineResourceType r) key)
                    (List.filter (keepRecord faviconUrls) networkRecords)))
            Spec.requestTypes).
  split.
  - apply mapM_Some, Forall2_fmap_r, Forall_Forall2_diag, Forall_forall.
    intros key Hkey.
    destruct (request_type_elem key Hkey) as (Hin & Ht & Htp).
    rewrite (summarize_lookup _ _ _ _ _ _ _ _ _ Hh Hf Hs Hin).
    do 2 f_equal. apply filter_same, Forall_forall. intros r _.
    by apply matchesBucket_type.
  - rewrite (summarize_lookup _ _ _ _ _ _ _ _ _ Hh Hf Hs total_elem).
    rewrite (filter_all _ _ (matchesBucket_total hosts)).
    rewrite type_entries_total; [done|].
    eapply Forall_impl; [exact Hwf|]. by intros r [Hr _].
Qed.

Lemma entryOf_filter_le (f : NetworkRequest → bool) (rs : list NetworkRequest) :
  Forall (λ r, 0 ≤ resourceSize r ∧ 0 ≤ transferSize r) rs →
  Entry.count (entryOf (List.filter f rs)) ≤ Entry.count (entryOf rs)
  ∧ Entry.resourceSize (entryOf (List.filter f rs))
    ≤ Entry.resourceSize (entryOf rs)
  ∧ Entry.transferSize (entryOf (List.filter f rs))
    ≤ Entry.transferSize (entryOf rs).
Proof.
  unfold entryOf. simpl.
  induction 1 as [|r rs [Hr Ht] _ (IH1 & IH2 & IH3)]; simpl; [lia|].
  destruct (f r); simpl; lia.
Qed.

(** X3. With non-negative input sizes, no bucket of the returned summary
    exceeds the "total" bucket, in count or in either size. *)
Theorem X3_bucket_at_most_total (networkRecords : list NetworkRequest)
    (URL : URLArtifact) (budgets : option (list Budget))
    (LinkElements : list LinkElement)
    (classifiedEntities : EntityClassification)
    (s : gmap string Entry.t) (key : string) (e total : Entry.t) :
  Forall (λ r, 0 ≤ resourceSize r ∧ 0 ≤ transferSize r) networkRecords →
  summarize networkRecords URL budgets LinkElements classifiedEntities = Some s →
  s !! key = Some e →
  s !! "total" = Some total →
  Entry.count e ≤ Entry.count total
  ∧ Entry.resourceSize e ≤ Entry.resourceSize total
  ∧ Entry.transferSize e ≤ Entry.transferSize total.
Proof.
  intros Hsizes Hs He Htot.
  destruct (proj1 (summarize_is_Some _ _ _ _ _) (ex_intro _ s Hs))
    as (hosts & faviconUrls & Hh & Hf & _).
  pose proof Hs as Hrun. rewrite (summarize_Some _ _ _ _ _ _ _ Hh Hf) in Hrun.
  rewrite (forEach_initial _ _ _ key Hrun) in He.
  rewrite (forEach_initial _ _ _ "total" Hrun) in Htot.
  rewrite (filter_all _ _ (matchesBucket_total hosts)) in Htot.
  destruct (initialSummary !! key); [|done].
  simpl in He, Htot. injection He as <-. injection Htot as <-.
  apply entryOf_filter_le. by apply Forall_filter.
Qed.

Lemma forEach_perm (hosts : list string) (rs rs' : list NetworkRequest) :
  rs ≡ₚ rs' →
  forEach hosts rs initialSummary = forEach hosts rs' initialSummary.
Proof.
  intros Hp.
  pose proof (forEach_is_Some hosts rs initialSummary initialSummary_dom) as H1.
  pose proof (forEach_is_Some hosts rs' initialSummary initialSummary_dom) as H2.
  assert (is_Some (forEach hosts rs initialSummary)
          ↔ is_Some (forEach hosts rs' initialSummary)) as H12.
  { rewrite H1, H2. split; apply Permutation_Forall; [done | by symmetry]. }
  clear H1 H2. rename H12 into H1.
  destruct (forEach hosts rs initialSummary) as [s1|] eqn:Hs1,
    (forEach hosts rs' initialSummary) as [s2|] eqn:Hs2.
  - f_equal. apply map_eq. intros key.
    rewrite (forEach_initial _ _ _ key Hs1), (forEach_initial _ _ _ key Hs2).
    destruct (initialSummary !! key); [|done]. simpl. f_equal.
    by apply entryOf_perm, filter_perm.
  - destruct (proj1 H1) as [? ?]; [by eexists | done].
  - destruct (proj2 H1) as [? ?]; [by eexists | done].
  - done.
Qed.

(** X4. The order of the records does not matter: on a permutation of the
    record list [summarize] returns the same summary, or throws as well. *)
Theorem X4_record_order_irrelevant (networkRecords networkRecords' :
      list NetworkRequest)
    (URL : URLArtifact) (budgets : option (list Budget))
    (LinkElements : list LinkElement)
    (classifiedEntities : EntityClassification) :
  networkRecords ≡ₚ networkRecords' →
  summarize networkRecords URL budgets LinkElements classifiedEntities
  = summarize networkRecords' URL budgets LinkElements classifiedEntities.
Proof.
  intros Hp. unfold summarize.
  destruct (firstPartyHosts _ _ _) as [hosts|]; [|done]. simpl.
  destruct (determineFaviconUrls _ _) as [faviconUrls|]; [|done]. simpl.
  by apply forEach_perm, filter_perm.
Qed.

Lemma forEach_app (hosts : list string) (rs1 rs2 : list NetworkRequest) :
  forEach hosts (rs1 ++ rs2) initialSummary
  = s1 ← forEach hosts rs1 initialSummary;
    s2 ← forEach hosts rs2 initialSummary;
    Some (mergeSummaries s1 s2).
Proof.
  pose proof (forEach_is_Some hosts (rs1 ++ rs2) initialSummary
                initialSummary_dom) as H12.
  pose proof (forEach_is_Some hosts rs1 initialSummary initialSummary_dom) as H1.
  pose proof (forEach_is_Some hosts rs2 initialSummary initialSummary_dom) as H2.
  rewrite Forall_app in H12. rewrite <- H1, <- H2 in H12. clear H1 H2.
  destruct (forEach hosts (rs1 ++ rs2) initialSummary) as [s|] eqn:Hs,
    (forEach hosts rs1 initialSummary) as [s1|] eqn:Hs1,
    (forEach hosts rs2 initialSummary) as [s2|] eqn:Hs2; simpl.
  - f_equal. apply map_eq. intros key. unfold mergeSummaries.
    rewrite lookup_union_with.
    rewrite (forEach_initial _ _ _ key Hs), (forEach_initial _ _ _ key Hs1),
      (forEach_initial _ _ _ key Hs2).
    destruct (initialSummary !! key); [|done]. simpl. f_equal.
    by rewrite List.filter_app, entryOf_app.
  - destruct (proj1 H12) as [_ [? ?]]; [by eexists | done].
  - destruct (proj1 H12) as [[? ?] _]; [by eexists | done].
  - destruct (proj1 H12) as [[? ?] _]; [by eexists | done].
  - destruct (proj2 H12) as [? ?]; [split; by eexists | done].
  - done.
  - done.
  - done.
Qed.

(** X5. Summaries compose: the summary of two record lists put end to end
    is the bucket-by-bucket, field-by-field sum of the summaries of the two
    lists, and it is returned exactly when both of them are. *)
Theorem X5_summaries_add_up (records1 records2 : list NetworkRequest)
    (URL : URLArtifact) (budgets : option (list Budget))
    (LinkElements : list LinkElement)
    (classifiedEntities : EntityClassification) :
  summarize (records1 ++ records2) URL budgets LinkElements classifiedEntities
  = s1 ← summarize records1 URL budgets LinkElements classifiedEntities;
    s2 ← summarize records2 URL budgets LinkElements classifiedEntities;
    Some (mergeSummaries s1 s2).
Proof.
  unfold summarize.
  destruct (firstPartyHosts _ _ _) as [hosts|]; [|done]. simpl.
  destruct (determineFaviconUrls _ _) as [faviconUrls|]; [|done]. simpl.
  rewrite List.filter_app. apply forEach_app.
Qed.

(** X6. A record the filter drops has no effect at all: taking it out of
    the input changes neither the returned summary nor whether [summarize]
    throws, whatever its URL, type and sizes are. *)
Theorem X6_dropped_record_has_no_effect (before after : list NetworkRequest)
    (record : NetworkRequest)
    (URL : URLArtifact) (budgets : option (list Budget))
    (LinkElements : list LinkElement)
    (classifiedEntities : EntityClassification) (faviconUrls : list string) :
  determineFaviconUrls LinkElements (mainDocumentUrl URL) = Some faviconUrls →
  keepRecord faviconUrls record = false →
  summarize (before ++ record :: after) URL budgets LinkElements
    classifiedEntities
  = summarize (before ++ after) URL budgets LinkElements classifiedEntities.
Proof.
  intros Hf Hdrop. unfold summarize.
  destruct (firstPartyHosts _ _ _) as [hosts|]; [|done]. simpl.
  rewrite Hf. simpl. rewrite !List.filter_app. simpl. by rewrite Hdrop.
Qed.



(** ** Further properties of the favicon detector *)

Lemma determineFaviconUrls_default (LinkElements : list LinkElement)
    (m : string) :
  JsString.truthy m = true →
  List.filter isIconLink LinkElements = [] →
  determineFaviconUrls LinkElements (Some m)
  = (λ u, [u]) <$> URL_href "/favicon.ico" m.
Proof.
  intros Hm Hnone. unfold determineFaviconUrls. rewrite Hm, Hnone. simpl.
  by destruct (URL_href _ _).
Qed.

Lemma determineFaviconUrls_declared (LinkElements : list LinkElement)
    (m : string) :
  JsString.truthy m = true →
  List.filter isIconLink LinkElements ≠ [] →
  determineFaviconUrls LinkElements (Some m)
  = mapM (λ h, URL_href h m) (iconHrefs LinkElements).
Proof.
  intros Hm Hicons. unfold determineFaviconUrls, iconHrefs. rewrite Hm.
  destruct (List.filter isIconLink LinkElements) as [|e icons]; [done|].
  cbn [negb length Nat.eqb]. cbv iota.
  rewrite pushIconUrls_mapM. by destruct (mapM _ _).
Qed.

Lemma omap_all_None {A B : Type} (f : A → option B) (l : list A) :
  Forall (λ x, f x = None) l → omap f l = [].
Proof. induction 1 as [|x l Hx _ IH]; simpl; [done | by rewrite Hx]. Qed.

(** X8. When icon links are declared but none of them has an href, the
    set of favicon URLs is empty: the default [/favicon.ico] is not put
    back, so the filter then drops the non-network requests only. *)
Theorem X8_icons_without_href (LinkElements : list LinkElement) (m : string) :
  JsString.truthy m = true →
  (∃ e, e ∈ LinkElements ∧ isIconLink e = true) →
  (∀ e, e ∈ LinkElements → isIconLink e = true →
        href e = None ∨ href e = Some EmptyString) →
  determineFaviconUrls LinkElements (Some m) = Some []
  ∧ ∀ record, keepRecord [] record = negb (isNonNetworkRequest record).
Proof.
  intros Hm [e0 [He0 Hicon0]] Hnohref. split.
  - rewrite determineFaviconUrls_declared; [|done|].
    + assert (iconHrefs LinkElements = []) as ->; [|done].
      unfold iconHrefs. apply omap_all_None.
      apply Forall_forall. intros e He.
      apply list_elem_of_In, filter_In in He as [He Hicon].
      apply list_elem_of_In in He. unfold usableHref.
      by destruct (Hnohref e He Hicon) as [-> | ->].
    + intros Hnil.
      assert (e0 ∈ List.filter isIconLink LinkElements) as Hin
        by (apply list_elem_of_In, filter_In; by rewrite <- list_elem_of_In).
      rewrite Hnil in Hin. by apply elem_of_nil in Hin.
  - intros record. unfold keepRecord. simpl. rewrite andb_false_r.
    by destruct (isNonNetworkRequest record).
Qed.

(** X9. When the favicon detector throws. Without a main document URL it
    always returns. Otherwise it returns exactly when every URL it has to
    build can be built: the default [/favicon.ico] when no icon link is
    declared, the hrefs of the declared icon links when there are some. The
    hrefs of other links are never resolved. *)
Theorem X9_favicon_urls_return_iff (LinkElements : list LinkElement)
    (mainDocumentUrl : option string) :
  (Spec.absent mainDocumentUrl →
   is_Some (determineFaviconUrls LinkElements mainDocumentUrl))
  ∧ (∀ m, mainDocumentUrl = Some m → m ≠ EmptyString →
       (List.filter isIconLink LinkElements = [] →
        (is_Some (determineFaviconUrls LinkElements mainDocumentUrl)
         ↔ is_Some (URL_href "/favicon.ico" m)))
       ∧ (List.filter isIconLink LinkElements ≠ [] →
          (is_Some (determineFaviconUrls LinkElements mainDocumentUrl)
           ↔ ∀ e h, e ∈ LinkElements → isIconLink e = true →
                    href e = Some h → h ≠ EmptyString →
                    is_Some (URL_href h m)))).
Proof.
  split.
  - intros Habs. apply absent_falsy in Habs. unfold determineFaviconUrls.
    destruct mainDocumentUrl as [m|]; [|by eexists].
    rewrite Habs. by eexists.
  - intros m -> Hm.
    assert (JsString.truthy m = true) as Htruthy by by destruct m.
    split.
    + intros Hnone. rewrite determineFaviconUrls_default by done.
      by rewrite fmap_is_Some.
    + intros Hicons. rewrite determineFaviconUrls_declared by done.
      rewrite mapM_is_Some, Forall_forall. split.
      * intros Hall e h He Hicon Hh Hne. apply (Hall h).
        apply iconHrefs_elem_of. by exists e.
      * intros Hall h Hin.
        apply iconHrefs_elem_of in Hin as (e & He & Hicon & Hh & Hne).
        by apply (Hall e h).
Qed.

(** ** Further properties of the party classifier *)

Lemma hostMatches_wildcard (hostname domain : string) :
  hostMatches hostname ("*." +:+ domain) = true ↔ Spec.endsWith hostname domain.
Proof.
  rewrite hostMatches_iff. unfold Spec.patternMatches. split.
  - intros [[suffix [Heq Hends]]|[Hno _]].
    + by apply (inj (String.app "*.")) in Heq as ->.
    + by destruct (Hno domain).
  - intros Hends. left. by exists domain.
Qed.

(** X10. A wildcard pattern is a plain suffix test on the hostname: the
    dot of [*.] is stripped with the star, so [*.domain] makes first-party
    every hostname that ends with the characters of [domain], the bare
    domain itself and hostnames that merely end with the same letters
    included. *)
Theorem X10_wildcard_is_suffix_test (hosts : list string)
    (record : NetworkRequest) (front domain : string) :
  URL_hostname (url record) = Some (front +:+ domain) →
  "*." +:+ domain ∈ hosts →
  isFirstParty hosts record = Some true.
Proof.
  intros Hparse Hin. rewrite (isFirstParty_parsed _ _ _ Hparse). f_equal.
  apply existsb_exists. exists ("*." +:+ domain).
  split; [by apply list_elem_of_In|].
  apply hostMatches_wildcard. by exists front.
Qed.


(** X12. Only the set of host patterns matters: two pattern lists with the
    same members give the same answer for every record, and the same
    result of the whole pass, throwing included. *)
Theorem X12_patterns_as_a_set (hosts1 hosts2 : list string) :
  (∀ pattern, pattern ∈ hosts1 ↔ pattern ∈ hosts2) →
  (∀ record, isFirstParty hosts1 record = isFirstParty hosts2 record)
  ∧ ∀ records s, forEach hosts1 records s = forEach hosts2 records s.
Proof.
  intros Hsame.
  assert (∀ record, isFirstParty hosts1 record = isFirstParty hosts2 record)
    as Hfp.
  { intros record.
    destruct (URL_hostname (url record)) as [hostname|] eqn:Hparse.
    - rewrite !(isFirstParty_parsed _ _ _ Hparse). f_equal.
      apply Bool.eq_iff_eq_true. rewrite !existsb_exists.
      split; intros [pattern [Hin Hm]]; exists pattern; (split; [|done]);
        apply list_elem_of_In, Hsame; by apply list_elem_of_In.
    - destruct hosts1 as [|p1 hosts1], hosts2 as [|p2 hosts2]; simpl.
      + done.
      + assert (p2 ∈ []) as Hin by (apply Hsame, elem_of_cons; by left).
        by apply elem_of_nil in Hin.
      + assert (p1 ∈ []) as Hin by (apply Hsame, elem_of_cons; by left).
        by apply elem_of_nil in Hin.
      + by rewrite Hparse. }
  split; [done|].
  intros records. induction records as [|record records IH]; intros s; simpl.
  - done.
  - unfold accumulate. rewrite Hfp.
    destruct (_ ≫= _) as [s1|]; [apply IH | done].
Qed.

(** ** compute_ *)

Lemma summarize_dom (networkRecords : list NetworkRequest) (URL : URLArtifact)
    (budgets : option (list Budget)) (LinkElements : list LinkElement)
    (classifiedEntities : EntityClassification) (s : gmap string Entry.t) :
  summarize networkRecords URL budgets LinkElements classifiedEntities = Some s →
  dom s = list_to_set Spec.budgetResourceTypes.
Proof.
  intros Hs.
  destruct (proj1 (summarize_is_Some _ _ _ _ _) (ex_intro _ s Hs))
    as (hosts & faviconUrls & Hh & Hf & _).
  rewrite (summarize_Some _ _ _ _ _ _ _ Hh Hf) in Hs.
  apply forEach_dom in Hs. rewrite Hs. apply initialSummary_dom.
Qed.

(** X13. [compute_] has no partial result: it fails when the network
    records or the entity classification cannot be obtained, and what it
    returns otherwise is the summary of the fetched records against the
    fetched entities, with all nine buckets. *)
Theorem X13_compute_all_or_nothing (data : Data.t DevtoolsLog) :
  (NetworkRecords_request (Data.devtoolsLog data) = None →
   compute_ data = None)
  ∧ (EntityClassification_request (Data.URL data) (Data.devtoolsLog data) = None →
     compute_ data = None)
  ∧ ∀ s, compute_ data = Some s →
      dom s = list_to_set Spec.budgetResourceTypes
      ∧ ∃ networkRecords classifiedEntities,
          NetworkRecords_request (Data.devtoolsLog data) = Some networkRecords
          ∧ EntityClassification_request (Data.URL data) (Data.devtoolsLog data)
            = Some classifiedEntities
          ∧ summarize networkRecords (Data.URL data) (Data.budgets data)
              (Data.LinkElements data) classifiedEntities = Some s.
Proof.
  unfold compute_. split; [|split].
  - by intros ->.
  - intros ->. by destruct (NetworkRecords_request _).
  - intros s Hs.
    destruct (NetworkRecords_request _) as [networkRecords|]; [|done].
    destruct (EntityClassification_request _ _) as [classifiedEntities|];
      [|done].
    simpl in Hs. split; [by apply summarize_dom in Hs|].
    by exists networkRecords, classifiedEntities.
Qed.

End Summary.

(** ** The claims on concrete page loads *)

Local Abbreviation demo_summarize :=
  (summarize Demo.URL_hostname Demo.URL_href Demo.getMatchingBudget
     Demo.isNonNetworkRequest Demo.getRootDomain).

Local Abbreviation demo_firstPartyHosts := (firstPartyHosts Demo.getRootDomain).

(** The page of [Demo], with its budget: of the seven records, only the
    [data:] image is not counted. *)
Lemma C1_total_bucket_witness :
  ∃ s,
    demo_summarize Demo.records Demo.page Demo.budgets Demo.links
      Demo.noEntities = Some s
    ∧ s !! "total"
      = Some {| Entry.count := 6; Entry.resourceSize := 1940;
                Entry.transferSize := 870 |}.
Proof.
  exists (default ∅ (demo_summarize Demo.records Demo.page Demo.budgets Demo.links
                    Demo.noEntities)).
  split; [reflexivity|].
  apply (C1_total_bucket Demo.URL_hostname Demo.URL_href
           Demo.getMatchingBudget Demo.isNonNetworkRequest
           Demo.getRootDomain Demo.records Demo.page Demo.budgets
           Demo.links Demo.noEntities ["https://example.com/icon.png"]);
    reflexivity.
Defined.

(** An image served from a declared icon URL is kept. *)
Lemma C2_filter_rule_witness :
  keepRecord Demo.isNonNetworkRequest ["https://example.com/icon.png"]
    (Demo.request "https://example.com/icon.png" (Some "Image") 70 80 "h2")
  = true.
Proof.
  apply (proj1 (proj2 (C2_filter_rule Demo.isNonNetworkRequest
           ["https://example.com/icon.png"]
           (Demo.request "https://example.com/icon.png" (Some "Image") 70 80 "h2")))).
  - apply list_elem_of_here.
  - vm_compute. discriminate.
  - vm_compute. reflexivity.
Defined.

Lemma C3_first_party_membership_witness :
  ∃ b,
    isFirstParty Demo.URL_hostname ["static.example.net"; "*.example.com"]
      (Demo.request "https://cdn.example.com/a.js" (Some "Script") 500 200 "h2")
    = Some b
    ∧ (b = true
       ↔ Spec.isFirstParty "cdn.example.com"
           ["static.example.net"; "*.example.com"]).
Proof.
  apply (C3_first_party_membership Demo.URL_hostname
           ["static.example.net"; "*.example.com"]
           (Demo.request "https://cdn.example.com/a.js" (Some "Script") 500 200 "h2")
           "cdn.example.com").
  vm_compute. reflexivity.
Defined.


(** No main document, no declared icon, and two declared icons of which
    one has no href. *)
Lemma C5_favicon_candidates_witness :
  determineFaviconUrls Demo.URL_href Demo.links None = Some []
  ∧ determineFaviconUrls Demo.URL_href [] (mainDocumentUrl Demo.page)
    = Some ["https://example.com/favicon.ico"]
  ∧ determineFaviconUrls Demo.URL_href Demo.links (mainDocumentUrl Demo.page)
    = Some ["https://example.com/icon.png"].
Proof.
  split; [|split].
  - apply (proj1 (C5_favicon_candidates Demo.URL_href Demo.links None)).
    by left.
  - apply (proj2 (C5_favicon_candidates Demo.URL_href []
                    (mainDocumentUrl Demo.page))
             "https://example.com/"); [reflexivity | discriminate | reflexivity].
  - apply (proj2 (C5_favicon_candidates Demo.URL_href Demo.links
                    (mainDocumentUrl Demo.page))
             "https://example.com/");
      [reflexivity | discriminate | vm_compute; discriminate].
Defined.

(** A [rel] with a leading space passes the trimmed test of the claim but
    is not selected by the code. *)
Lemma C6_trimmed_rel_counterexample :
  ¬ (isIconLink {| rel := " icon"; href := Some "/icon.png" |} = true
     ↔ Spec.isIconLink {| rel := " icon"; href := Some "/icon.png" |}).
Proof.
  intros [_ Hsel].
  assert (isIconLink {| rel := " icon"; href := Some "/icon.png" |} = true)
    as Habs by (apply Hsel; by left).
  vm_compute in Habs. discriminate.
Qed.

Lemma C6_icon_link_exact_witness :
  isIconLink {| rel := "shortcut icon"; href := None |} = true
  ∧ Spec.isIconLink {| rel := "shortcut icon"; href := None |}.
Proof.
  split.
  - apply (proj1 (C6_icon_link_exact {| rel := "shortcut icon"; href := None |})).
    by right.
  - apply (proj2 (C6_icon_link_exact {| rel := "shortcut icon"; href := None |})).
    vm_compute. reflexivity.
Defined.

Lemma C7_third_party_complement_witness :
  ∃ s,
    demo_summarize Demo.records Demo.page Demo.budgets Demo.links
      Demo.noEntities = Some s
    ∧ ∃ thirdParty total,
        s !! "third-party" = Some thirdParty
        ∧ s !! "total" = Some total
        ∧ Entry.count thirdParty + 4 = Entry.count total
        ∧ thirdParty
          = {| Entry.count := 2; Entry.resourceSize := 320;
               Entry.transferSize := 130 |}.
Proof.
  exists (default ∅ (demo_summarize Demo.records Demo.page Demo.budgets Demo.links
                    Demo.noEntities)).
  split; [reflexivity|].
  apply (C7_third_party_complement Demo.URL_hostname Demo.URL_href
           Demo.getMatchingBudget Demo.isNonNetworkRequest
           Demo.getRootDomain Demo.records Demo.page Demo.budgets
           Demo.links Demo.noEntities
           ["static.example.net"; "*.example.com"]
           ["https://example.com/icon.png"]);
    reflexivity.
Defined.

(** Outside the declared type: the table object inherits [constructor]
    from [Object.prototype], so for that string the read finds the
    inherited function and the fallback to "other" is not taken. *)
Example inherited_name_is_not_classified :
  determineResourceType
    (Demo.request "https://example.com/x" (Some "constructor") 1 1 "h2")
  = VInherited "constructor".
Proof. vm_compute. reflexivity. Qed.

(** Every resource type of the protocol is classified by the table. *)
Lemma C8_classifier_table_witness :
  Forall (λ t, determineResourceType
                 (Demo.request "https://other.com/api" (Some t) 20 30 "h2")
               = VString (Spec.classify (Some t)))
    Demo.protocolResourceTypes
  ∧ determineResourceType
      (Demo.request "https://other.com/api" (Some "XHR") 20 30 "h2")
    = VString "other".
Proof.
  split.
  - unfold Demo.protocolResourceTypes.
    repeat (apply Forall_cons; split;
            [match goal with
             | |- determineResourceType (Demo.request _ (Some ?t) _ _ _) = _ =>
                 apply (proj2 (proj2 (proj2 (C8_classifier_table
                          (Demo.request "https://other.com/api" (Some t) 20 30
                             "h2")))));
                 intros t' [= <-] Hin; unfold objectPrototypeKeys in Hin;
                 not_in_list Hin
             end|]).
    apply Forall_nil. exact I.
  - apply (proj2 (proj2 (proj2 (C8_classifier_table
             (Demo.request "https://other.com/api" (Some "XHR") 20 30 "h2"))))).
    intros t [= <-] Hin. unfold objectPrototypeKeys in Hin. not_in_list Hin.
Defined.

(** The page of [Demo] without budget and with a first-party entity: all
    nine buckets are there; "font", which no surviving record matches,
    holds zeros. With no record at all, every bucket holds zeros. *)
Lemma C9_nine_buckets_witness :
  (∃ s,
     demo_summarize Demo.records Demo.page None Demo.links Demo.entities = Some s
     ∧ dom s = list_to_set Spec.budgetResourceTypes
     ∧ s !! "font" = Some Entry.zero
     ∧ s !! "script"
       = Some {| Entry.count := 2; Entry.resourceSize := 800;
                 Entry.transferSize := 300 |})
  ∧ (∃ s,
       demo_summarize [] Demo.page None [] Demo.noEntities = Some s
       ∧ ∀ key, key ∈ Spec.budgetResourceTypes → s !! key = Some Entry.zero).
Proof.
  split.
  - exists (default ∅ (demo_summarize Demo.records Demo.page None Demo.links
                         Demo.entities)).
    split; [reflexivity|].
    destruct (C9_nine_buckets Demo.URL_hostname Demo.URL_href
           Demo.getMatchingBudget Demo.isNonNetworkRequest
           Demo.getRootDomain Demo.records Demo.page None Demo.links
                Demo.entities ["*.example.com"; "*.example.org"]
                ["https://example.com/icon.png"]
                (default ∅ (demo_summarize Demo.records Demo.page None
                              Demo.links Demo.entities)))
      as (Hdom & _ & Hzero & _); [reflexivity | reflexivity | reflexivity |].
    split; [exact Hdom|]. split; [|reflexivity].
    apply Hzero; [in_list|].
    intros r Hr. apply list_elem_of_In, filter_In in Hr as [Hr _].
    apply list_elem_of_In in Hr. unfold Demo.records in Hr.
    repeat (apply elem_of_cons in Hr as [->|Hr]; [reflexivity|]).
    by apply elem_of_nil in Hr.
  - exists (default ∅ (demo_summarize [] Demo.page None [] Demo.noEntities)).
    split; [reflexivity|].
    apply (C9_nine_buckets Demo.URL_hostname Demo.URL_href
           Demo.getMatchingBudget Demo.isNonNetworkRequest
           Demo.getRootDomain [] Demo.page None [] Demo.noEntities
             ["*.example.com"] ["https://example.com/favicon.ico"]);
      reflexivity.
Defined.

(** A first-party entity without domains: the five surviving records are
    all third-party. *)
Lemma C10_empty_entity_domains_witness :
  ∃ s,
    demo_summarize Demo.records Demo.page None [] Demo.emptyEntity = Some s
    ∧ demo_firstPartyHosts
        (Demo.getMatchingBudget None (mainDocumentUrl Demo.page))
        Demo.emptyEntity Demo.page = Some []
    ∧ s !! "third-party"
      = Some {| Entry.count := 5; Entry.resourceSize := 1890;
                Entry.transferSize := 810 |}
    ∧ s !! "third-party" = s !! "total".
Proof.
  exists (default ∅ (demo_summarize Demo.records Demo.page None []
                       Demo.emptyEntity)).
  split; [reflexivity|].
  apply (C10_empty_entity_domains Demo.URL_hostname Demo.URL_href
           Demo.getMatchingBudget Demo.isNonNetworkRequest
           Demo.getRootDomain Demo.records Demo.page None []
           Demo.emptyEntity {| name := "Example"; domains := [] |}
           ["https://example.com/favicon.ico"]);
    reflexivity.
Defined.

(** ** Scenarios of the specification, run on the embedding *)

(** With no declared icon link, the request for [/favicon.ico] without a
    resource type is counted in no bucket. *)
Example default_favicon_is_excluded :
  demo_summarize
    [Demo.request "https://example.com/favicon.ico" None 50 60 "h2"]
    Demo.page None [] Demo.noEntities
  = Some initialSummary.
Proof. vm_compute. reflexivity. Qed.

(** A [data:] URL is counted in no bucket, not even "total". *)
Example data_url_is_excluded :
  demo_summarize
    [Demo.request "data:image/png;base64,AAAA" (Some "Image") 10 0 "data"]
    Demo.page None [] Demo.noEntities
  = Some initialSummary.
Proof. vm_compute. reflexivity. Qed.

(** A script from another site is counted under "script", "total" and
    "third-party", and under nothing else. *)
Example third_party_script :
  demo_summarize
    [Demo.request "https://other.com/b.js" (Some "Script") 300 100 "h2"]
    Demo.page Demo.budgets [] Demo.noEntities
  = Some (<["script" := {| Entry.count := 1; Entry.resourceSize := 300;
                           Entry.transferSize := 100 |}]>
          (<["total" := {| Entry.count := 1; Entry.resourceSize := 300;
                           Entry.transferSize := 100 |}]>
           (<["third-party" := {| Entry.count := 1; Entry.resourceSize := 300;
                                  Entry.transferSize := 100 |}]>
            initialSummary))).
Proof. vm_compute. reflexivity. Qed.

(** A record whose type names an inherited property makes the pass throw
    when it survives the filter. *)
Example inherited_type_throws :
  demo_summarize
    [Demo.request "https://example.com/x" (Some "toString") 1 1 "h2"]
    Demo.page None [] Demo.noEntities
  = None.
Proof. vm_compute. reflexivity. Qed.

(** ** The further properties on concrete page loads *)

Lemma X1_type_bucket_witness :
  ∃ s,
    demo_summarize Demo.records Demo.page Demo.budgets Demo.links
      Demo.noEntities = Some s
    ∧ s !! "script"
      = Some {| Entry.count := 2; Entry.resourceSize := 800;
                Entry.transferSize := 300 |}.
Proof.
  exists (default ∅ (demo_summarize Demo.records Demo.page Demo.budgets Demo.links
                    Demo.noEntities)).
  split; [reflexivity|].
  apply (X1_type_bucket Demo.URL_hostname Demo.URL_href
           Demo.getMatchingBudget Demo.isNonNetworkRequest
           Demo.getRootDomain Demo.records Demo.page Demo.budgets
           Demo.links Demo.noEntities ["https://example.com/icon.png"]);
    [reflexivity | reflexivity | in_list].
Defined.

Lemma X2_type_buckets_partition_total_witness :
  ∃ s entries,
    demo_summarize Demo.records Demo.page Demo.budgets Demo.links
      Demo.noEntities = Some s
    ∧ mapM (λ key, s !! key) Spec.requestTypes = Some entries
    ∧ s !! "total" = Some (foldr plus Entry.zero entries).
Proof.
  destruct (X2_type_buckets_partition_total Demo.URL_hostname Demo.URL_href
           Demo.getMatchingBudget Demo.isNonNetworkRequest
           Demo.getRootDomain Demo.records Demo.page
              Demo.budgets Demo.links Demo.noEntities
              (default ∅ (demo_summarize Demo.records Demo.page Demo.budgets Demo.links
                    Demo.noEntities)))
    as (entries & Hentries & Htotal).
  - reflexivity.
  - exists (default ∅ (demo_summarize Demo.records Demo.page Demo.budgets Demo.links
                    Demo.noEntities)), entries.
    split; [reflexivity|]. split; [exact Hentries | exact Htotal].
Defined.

Lemma X3_bucket_at_most_total_witness :
  ∃ s e total,
    demo_summarize Demo.records Demo.page Demo.budgets Demo.links
      Demo.noEntities = Some s
    ∧ s !! "script" = Some e
    ∧ s !! "total" = Some total
    ∧ Entry.count e ≤ Entry.count total
    ∧ Entry.resourceSize e ≤ Entry.resourceSize total
    ∧ Entry.transferSize e ≤ Entry.transferSize total.
Proof.
  exists (default ∅ (demo_summarize Demo.records Demo.page Demo.budgets Demo.links
                    Demo.noEntities)),
    {| Entry.count := 2; Entry.resourceSize := 800; Entry.transferSize := 300 |},
    {| Entry.count := 6; Entry.resourceSize := 1940; Entry.transferSize := 870 |}.
  split; [reflexivity|]. split; [reflexivity|]. split; [reflexivity|].
  apply (X3_bucket_at_most_total Demo.URL_hostname Demo.URL_href
           Demo.getMatchingBudget Demo.isNonNetworkRequest
           Demo.getRootDomain Demo.records Demo.page Demo.budgets
           Demo.links Demo.noEntities
           (default ∅ (demo_summarize Demo.records Demo.page Demo.budgets Demo.links
                    Demo.noEntities)) "script").
  - repeat (apply Forall_cons; split; [split; discriminate|]).
    apply Forall_nil. exact I.
  - reflexivity.
  - reflexivity.
  - reflexivity.
Defined.

Lemma X4_record_order_irrelevant_witness :
  demo_summarize Demo.records Demo.page Demo.budgets Demo.links Demo.noEntities
  = demo_summarize (rev Demo.records) Demo.page Demo.budgets Demo.links
      Demo.noEntities.
Proof.
  apply (X4_record_order_irrelevant Demo.URL_hostname Demo.URL_href
           Demo.getMatchingBudget Demo.isNonNetworkRequest
           Demo.getRootDomain Demo.records (rev Demo.records)).
  apply Permutation_rev.
Defined.

(** The [data:] image in the middle of a list. *)
Lemma X6_dropped_record_has_no_effect_witness :
  demo_summarize
    [ Demo.request "https://example.com/" (Some "Document") 1000 400 "h2";
      Demo.request "data:image/png;base64,AAAA" (Some "Image") 10 0 "data";
      Demo.request "https://other.com/api" (Some "XHR") 20 30 "h2" ]
    Demo.page Demo.budgets Demo.links Demo.noEntities
  = demo_summarize
      [ Demo.request "https://example.com/" (Some "Document") 1000 400 "h2";
        Demo.request "https://other.com/api" (Some "XHR") 20 30 "h2" ]
      Demo.page Demo.budgets Demo.links Demo.noEntities.
Proof.
  apply (X6_dropped_record_has_no_effect Demo.URL_hostname Demo.URL_href
           Demo.getMatchingBudget Demo.isNonNetworkRequest
           Demo.getRootDomain
           [ Demo.request "https://example.com/" (Some "Document") 1000 400 "h2" ]
           [ Demo.request "https://other.com/api" (Some "XHR") 20 30 "h2" ]
           (Demo.request "data:image/png;base64,AAAA" (Some "Image") 10 0 "data")
           Demo.page Demo.budgets Demo.links Demo.noEntities
           ["https://example.com/icon.png"]).
  - vm_compute. reflexivity.
  - vm_compute. reflexivity.
Defined.

Lemma X8_icons_without_href_witness :
  determineFaviconUrls Demo.URL_href
    [ {| rel := "icon"; href := None |};
      {| rel := "shortcut icon"; href := Some EmptyString |} ]
    (Some "https://example.com/")
  = Some []
  ∧ keepRecord Demo.isNonNetworkRequest []
      (Demo.request "https://example.com/favicon.ico" None 50 60 "h2")
    = true.
Proof.
  destruct (X8_icons_without_href Demo.URL_href Demo.isNonNetworkRequest
              [ {| rel := "icon"; href := None |};
                {| rel := "shortcut icon"; href := Some EmptyString |} ]
              "https://example.com/") as [Hurls Hkeep].
  - reflexivity.
  - exists {| rel := "icon"; href := None |}. split; [in_list | reflexivity].
  - intros e He _.
    apply elem_of_cons in He as [->|He]; [by left|].
    apply elem_of_cons in He as [->|He]; [by right|].
    by apply elem_of_nil in He.
  - split; [exact Hurls|]. rewrite Hkeep. reflexivity.
Defined.

Lemma X9_favicon_urls_return_iff_witness :
  is_Some (determineFaviconUrls Demo.URL_href Demo.links None)
  ∧ (is_Some (determineFaviconUrls Demo.URL_href []
                (Some "https://example.com/"))
     ↔ is_Some (Demo.URL_href "/favicon.ico" "https://example.com/"))
  ∧ (is_Some (determineFaviconUrls Demo.URL_href []
                (Some "ftp://example.com/"))
     ↔ is_Some (Demo.URL_href "/favicon.ico" "ftp://example.com/")).
Proof.
  split; [|split].
  - apply (proj1 (X9_favicon_urls_return_iff Demo.URL_href Demo.links None)).
    by left.
  - apply (proj2 (X9_favicon_urls_return_iff Demo.URL_href []
                    (Some "https://example.com/"))
             "https://example.com/"); [reflexivity | discriminate | reflexivity].
  - apply (proj2 (X9_favicon_urls_return_iff Demo.URL_href []
                    (Some "ftp://example.com/"))
             "ftp://example.com/"); [reflexivity | discriminate | reflexivity].
Defined.

(** [notexample.com] is first-party for the pattern [*.example.com]. *)
Lemma X10_wildcard_is_suffix_test_witness :
  isFirstParty Demo.URL_hostname ["static.example.net"; "*.example.com"]
    (Demo.request "https://notexample.com/x.js" (Some "Script") 1 1 "h2")
  = Some true.
Proof.
  apply (X10_wildcard_is_suffix_test Demo.URL_hostname
           ["static.example.net"; "*.example.com"]
           (Demo.request "https://notexample.com/x.js" (Some "Script") 1 1 "h2")
           "not" "example.com").
  - vm_compute. reflexivity.
  - in_list.
Defined.


Lemma X12_patterns_as_a_set_witness :
  isFirstParty Demo.URL_hostname ["static.example.net"; "*.example.com"]
    (Demo.request "https://cdn.example.com/a.js" (Some "Script") 500 200 "h2")
  = isFirstParty Demo.URL_hostname
      ["*.example.com"; "static.example.net"; "*.example.com"]
      (Demo.request "https://cdn.example.com/a.js" (Some "Script") 500 200 "h2").
Proof.
  apply (X12_patterns_as_a_set Demo.URL_hostname
           ["static.example.net"; "*.example.com"]
           ["*.example.com"; "static.example.net"; "*.example.com"]).
  intros pattern.
  split; intros H;
    repeat (apply elem_of_cons in H as [->|H]; [in_list|]);
    by apply elem_of_nil in H.
Defined.

(** A log whose records can be read, and a malformed one. *)
Lemma X13_compute_all_or_nothing_witness :
  compute_ Demo.URL_hostname Demo.URL_href Demo.getMatchingBudget
    Demo.isNonNetworkRequest Demo.getRootDomain
    (option (list NetworkRequest)) Demo.NetworkRecords_request
    Demo.EntityClassification_request (Demo.data None) = None
  ∧ ∃ s,
      compute_ Demo.URL_hostname Demo.URL_href Demo.getMatchingBudget
        Demo.isNonNetworkRequest Demo.getRootDomain
        (option (list NetworkRequest)) Demo.NetworkRecords_request
        Demo.EntityClassification_request (Demo.data (Some Demo.records))
      = Some s
      ∧ dom s = list_to_set Spec.budgetResourceTypes.
Proof.
  split.
  - apply (proj1 (X13_compute_all_or_nothing Demo.URL_hostname Demo.URL_href Demo.getMatchingBudget
              Demo.isNonNetworkRequest Demo.getRootDomain
              (option (list NetworkRequest)) Demo.NetworkRecords_request
              Demo.EntityClassification_request (Demo.data None))).
    reflexivity.
  - exists (default ∅
              (compute_ Demo.URL_hostname Demo.URL_href Demo.getMatchingBudget
              Demo.isNonNetworkRequest Demo.getRootDomain
              (option (list NetworkRequest)) Demo.NetworkRecords_request
              Demo.EntityClassification_request (Demo.data (Some Demo.records)))).
    split; [reflexivity|].
    apply (proj2 (proj2 (X13_compute_all_or_nothing Demo.URL_hostname Demo.URL_href Demo.getMatchingBudget
              Demo.isNonNetworkRequest Demo.getRootDomain
              (option (list NetworkRequest)) Demo.NetworkRecords_request
              Demo.EntityClassification_request
                           (Demo.data (Some Demo.records))))).
    reflexivity.
Defined.

